(** * IRL co-creation wizard: feedback store, wizard navigation, section keys

    A shallow embedding of [IRL_framework.py].  The program is a Streamlit
    script: every user action re-runs [main] against the per-session state
    [st.session_state] and the shared SQLite table [feedback].  Here a run
    is a function of the widget values of that run, the session state and
    the table. *)

From Stdlib Require Import ZArith NArith String Ascii List Permutation Sorted Lia Bool.
From stdpp Require Import base option list sorting gmap.

Local Open Scope Z_scope.

(** ** Python strings

    A Python [str] is a sequence of Unicode code points. *)

Abbreviation str := (list N).

(** An ASCII literal of the source, byte for byte. *)
Definition lit (s : string) : str :=
  List.map N_of_ascii (list_ascii_of_string s).

(** [Py_UNICODE_ISSPACE], the characters [str.strip()] removes. *)
Definition isspace (c : N) : bool :=
  ((9 <=? c) && (c <=? 13) || (28 <=? c) && (c <=? 32)
   || (c =? 133) || (c =? 160) || (c =? 5760)
   || (8192 <=? c) && (c <=? 8202)
   || (c =? 8232) || (c =? 8233) || (c =? 8239) || (c =? 8287)
   || (c =? 12288))%N.

Fixpoint lstrip (s : str) : str :=
  match s with
  | c :: s' => if isspace c then lstrip s' else s
  | [] => []
  end.

Definition rstrip (s : str) : str := rev (lstrip (rev s)).

(** [s.strip()] *)
Definition strip (s : str) : str := rstrip (lstrip s).

(** Truth value of a string in a condition: [if s]. *)
Definition truthy (s : str) : bool :=
  match s with [] => false | _ :: _ => true end.

(** A string made of whitespace only (the empty one included). *)
Definition blank (s : str) : bool := forallb isspace s.

Definition str_eqb (a b : str) : bool := bool_decide (a = b).

(** ** The [feedback] table

    Columns as created by [init_db].  [id] is the rowid (INTEGER PRIMARY KEY
    AUTOINCREMENT); [created_at] is the reading of the database clock at
    insert time (CURRENT_TIMESTAMP, one-second resolution), kept here as the
    number of seconds it denotes. *)

Module TableRow.
Record t := mk {
  id : Z;
  user_id : str;
  user_name : str;
  step : str;
  section : str;
  feedback : str;
  created_at : Z
}.
End TableRow.

(** The dictionaries [get_feedback] returns, one per fetched row. *)
Module Entry.
Record t := mk {
  id : Z;
  user_id : str;
  user_name : str;
  step : str;
  section : str;
  feedback : str;
  created_at : Z
}.
End Entry.

(** The database file: the rows of [feedback] in rowid order and the
    AUTOINCREMENT counter SQLite keeps for the table (the largest rowid
    ever handed out). *)
Record DB := mkDB {
  rows : list TableRow.t;
  seq : Z
}.

Definition empty_db : DB := mkDB [] 0.

(** [init_db]: CREATE TABLE IF NOT EXISTS; [None] is a file without the table. *)
Definition init_db (file : option DB) : DB :=
  match file with
  | Some db => db
  | None => empty_db
  end.

Definition max_rowid (l : list TableRow.t) : Z :=
  foldr (fun r m => Z.max (TableRow.id r) m) 0 l.

(** The rowid an AUTOINCREMENT insert picks. *)
Definition next_rowid (db : DB) : Z :=
  Z.max (seq db) (max_rowid (rows db)) + 1.

(** [add_feedback(user_id, user_name, step, section, feedback)], run when
    the database clock reads [now]. *)
Definition add_feedback (now : Z) (user_id user_name step section feedback : str)
    (db : DB) : DB :=
  let rid := next_rowid db in
  mkDB (rows db ++ [TableRow.mk rid user_id user_name step section (strip feedback) now])
       rid.

(** The WHERE clause [get_feedback] sends: [section] is [None] when the
    argument is omitted; [if section:] takes the first query only for a
    non-empty string. *)
Definition where_clause (step : str) (section : option str) (r : TableRow.t) : bool :=
  match section with
  | Some s =>
      if truthy s
      then str_eqb (TableRow.step r) step && str_eqb (TableRow.section r) s
      else str_eqb (TableRow.step r) step
  | None => str_eqb (TableRow.step r) step
  end.

(** [row[2] if row[2] else "Anonymous"] and the other six keys. *)
Definition entry_of_row (r : TableRow.t) : Entry.t :=
  Entry.mk (TableRow.id r) (TableRow.user_id r)
           (if truthy (TableRow.user_name r) then TableRow.user_name r else lit "Anonymous")
           (TableRow.step r) (TableRow.section r) (TableRow.feedback r) (TableRow.created_at r).

Definition le_created (a b : TableRow.t) : Prop := TableRow.created_at a <= TableRow.created_at b.

(** What [ORDER BY created_at ASC] asks of the engine that runs the query:
    the selected rows, each once, in non-decreasing [created_at]. *)
Class OrderBy := {
  order_by_created_at : list TableRow.t -> list TableRow.t;
  order_by_perm : forall l, Permutation l (order_by_created_at l);
  order_by_sorted : forall l, StronglySorted le_created (order_by_created_at l)
}.

(** SQLite runs the query as a scan of the table in rowid order followed
    by a sort of the selected rows on [created_at], here a sort by
    insertion.  [before x y] decides whether a row goes in front of an
    already placed one. *)
Fixpoint insert_row (before : TableRow.t -> TableRow.t -> bool) (x : TableRow.t)
    (l : list TableRow.t) : list TableRow.t :=
  match l with
  | [] => [x]
  | y :: l' => if before x y then x :: l else y :: insert_row before x l'
  end.

Definition insertion_sort (before : TableRow.t -> TableRow.t -> bool)
    (l : list TableRow.t) : list TableRow.t :=
  foldr (insert_row before) [] l.

(** The comparison of SQLite's sort: rows with equal [created_at] stay in
    scan (rowid) order. *)
Definition scan_first (x y : TableRow.t) : bool :=
  TableRow.created_at x <=? TableRow.created_at y.

(** [get_feedback(step, section=None)] *)
Definition get_feedback `{OrderBy} (step : str) (section : option str) (db : DB)
    : list Entry.t :=
  List.map entry_of_row
    (order_by_created_at (List.filter (where_clause step section) (rows db))).

(** The predicate of [DELETE FROM feedback WHERE id = ? AND user_id = ?]. *)
Definition delete_where (record_id : Z) (user_id : str) (r : TableRow.t) : bool :=
  (TableRow.id r =? record_id) && str_eqb (TableRow.user_id r) user_id.

(** [delete_feedback(record_id, user_id)]: the new table and [rowcount > 0]. *)
Definition delete_feedback (record_id : Z) (user_id : str) (db : DB) : DB * bool :=
  let rowcount := Z.of_nat (length (List.filter (delete_where record_id user_id) (rows db))) in
  (mkDB (List.filter (fun r => negb (delete_where record_id user_id r)) (rows db)) (seq db),
   0 <? rowcount).

(** ** Global configuration *)

Definition PASSCODE : str := lit "DECODE".

Definition WIZARD_STEPS : list str :=
  [lit "Introduction"; lit "Method Categories"; lit "Parent Attributes";
   lit "Child Attributes"; lit "Final Comments"].

Definition METHOD_CATEGORIES : list str :=
  [lit "Simulations"; lit "Modeling"; lit "Characterization"; lit "Testing";
   lit "Assessment"].

Definition PARENT_ATTRIBUTES : list str :=
  [lit "Maturity"; lit "Resource Requirements"; lit "Interoperability";
   lit "Integration Complexity"; lit "Utility"].

(** The nested dictionary literal of the source: category, parent attribute,
    then the list of (name, description, scoring scale) tuples.  No key is
    repeated in the literal. *)
Definition CHILD_ATTRIBUTES_DICT : gmap str (gmap str (list (str * str * str))) :=
  list_to_map [
    (lit "Simulations", list_to_map [
      (lit "Maturity", [
        (lit "Validation Level",
         lit "How thoroughly the simulation method is validated against experimental or benchmark data.",
         lit "1=No validation; 5=Some; 9=Extensively validated");
        (lit "Numerical Stability",
         lit "Frequency of solver crashes, convergence issues, or non-physical results.",
         lit "1=Frequent instabilities; 5=Occasional issues; 9=Very stable");
        (lit "Method Standardization",
         lit "Degree of standardized protocols, best practices, and accepted formats.",
         lit "1=Ad-hoc; 5=Some guidelines; 9=Fully standardized")
      ]);
      (lit "Resource Requirements", [
        (lit "Licensing Costs",
         lit "Financial cost of simulation software licenses.",
         lit "1=Very expensive; 5=Moderate; 9=Open-source/free");
        (lit "Computational Demand",
         lit "CPU/GPU hours, memory requirements, runtime.",
         lit "1=Requires HPC/very long runs; 5=Overnight; 9=Minimal footprint");
        (lit "Training Load",
         lit "Expertise and time required to learn and operate the simulation method.",
         lit "1=Highly specialized; 5=Graduate-level skill; 9=Intuitive/minimal training")
      ]);
      (lit "Interoperability", [
        (lit "Data Format Compatibility",
         lit "Ability to import/export data in standard formats (e.g., EC-lab, netCDF).",
         lit "1=Proprietary only; 5=Partial; 9=Fully open");
        (lit "Platform Independence",
         lit "Ability to run on various OS/HPC environments.",
         lit "1=Single OS; 5=Multi-OS with tweaks; 9=Fully cross-platform");
        (lit "API/Scripting Availability",
         lit "Availability of APIs or scripting interfaces for customization.",
         lit "1=No API; 5=Limited; 9=Extensive APIs")
      ]);
      (lit "Integration Complexity", [
        (lit "Pre-processing Time",
         lit "Time/effort to set up geometry, boundary conditions, and meshing.",
         lit "1=Days; 5=Hours; 9=Automated in minutes");
        (lit "Post-processing Tools",
         lit "Quality and user-friendliness of visualization and analysis tools.",
         lit "1=Complex external steps; 5=Basic tools; 9=Advanced & automated");
        (lit "Parameter Sensitivity & UQ Modules",
         lit "Ease of performing uncertainty quantification and parameter sweeps.",
         lit "1=Manual/tedious; 5=Some scripting; 9=Fully integrated")
      ]);
      (lit "Utility", [
        (lit "Predictive Value",
         lit "How beneficial are the simulation outputs for hydrogen R&D or industrial workflows?",
         lit "1=Minimal impact; 5=Moderate; 9=Transformative");
        (lit "Industry Alignment",
         lit "Relevance to IEC/ISO, DoE references, HPC usage optimizations.",
         lit "1=Low relevance; 5=Medium; 9=Fully aligned & strategic")
      ])
    ]);
    (lit "Modeling", list_to_map [
      (lit "Maturity", [
        (lit "Theoretical Foundation Robustness",
         lit "How well-accepted the theoretical underpinnings are.",
         lit "1=Speculative; 5=Moderately accepted; 9=Widely accepted");
        (lit "Code Base Stability",
         lit "Frequency and magnitude of model code revisions.",
         lit "1=Constant major changes; 5=Occasional updates; 9=Very stable");
        (lit "Parameter Validation",
         lit "Level of parameter fitting and validation against data.",
         lit "1=Poorly validated; 5=Some; 9=Thoroughly validated")
      ]);
      (lit "Resource Requirements", [
        (lit "Software Cost",
         lit "Licensing or acquisition cost of modeling tools.",
         lit "1=Very expensive; 5=Moderate/partial OS; 9=Open-source/free");
        (lit "Computational Efficiency",
         lit "Runtime and resource usage for solving or parameter estimation.",
         lit "1=Days/run; 5=Hours/run; 9=Minutes or less");
        (lit "Maintenance Overhead",
         lit "Effort to keep the model updated and functional.",
         lit "1=Frequent recalibration; 5=Occasional updates; 9=Low maintenance")
      ]);
      (lit "Interoperability", [
        (lit "Input Data Format Compatibility",
         lit "Ability to use standard data sets or link with experimental databases.",
         lit "1=Proprietary only; 5=Some standard imports; 9=Fully flexible");
        (lit "Model Coupling Capability",
         lit "Ease of linking this model to other models.",
         lit "1=Standalone; 5=Partial bridging; 9=Fully modular");
        (lit "Documentation & Standards",
         lit "Quality of documentation and adherence to modeling standards.",
         lit "1=Poor docs; 5=Basic; 9=Comprehensive/standardized")
      ]);
      (lit "Integration Complexity", [
        (lit "Implementation Complexity",
         lit "Difficulty integrating the model into existing workflows.",
         lit "1=Very difficult; 5=Moderate; 9=Plug-and-play");
        (lit "Sensitivity Analysis Tools",
         lit "Built-in parameter sensitivity and uncertainty routines.",
         lit "1=None; 5=Limited; 9=Robust integrated features");
        (lit "Scalability",
         lit "Ability to scale from component-level to system-level modeling.",
         lit "1=Restricted; 5=Some scaling; 9=Easily scalable")
      ]);
      (lit "Utility", [
        (lit "Predictive Accuracy vs. Project Goals",
         lit "Does the model significantly improve decision-making or project KPIs?",
         lit "1=Marginal; 5=Useful; 9=Highly impactful");
        (lit "Adoption Potential",
         lit "Likelihood that others in the consortium or industry adopt it once integrated.",
         lit "1=Unlikely; 5=Moderate; 9=Very likely")
      ])
    ]);
    (lit "Characterization", list_to_map [
      (lit "Maturity", [
        (lit "Resolution & Sensitivity",
         lit "Smallest distinguishable feature or analyte quantity.",
         lit "1=Low res; 5=Moderate; 9=High-resolution");
        (lit "Reproducibility",
         lit "Consistency of results under identical conditions.",
         lit "1=Highly variable; 5=Some variability; 9=Highly reproducible");
        (lit "Standard Protocol Acceptance",
         lit "Adoption of widely recognized characterization protocols.",
         lit "1=None; 5=Some guidelines; 9=Industry-level standards")
      ]);
      (lit "Resource Requirements", [
        (lit "Equipment Investment",
         lit "Capital cost of required instrumentation.",
         (lit "1=>" ++ [8364%N] ++ lit "200k; 5=" ++ [8364%N] ++ lit "50k" ++ [8211%N] ++ lit "200k; 9=<" ++ [8364%N] ++ lit "10k"));
        (lit "Consumable Usage",
         lit "Cost/frequency of consumables per measurement.",
         lit "1=High cost; 5=Moderate; 9=Minimal");
        (lit "Labor Intensity",
         lit "Personnel time required per sample.",
         lit "1=Hours; 5=~1 hour; 9=Minutes")
      ]);
      (lit "Interoperability", [
        (lit "Hardware Compatibility",
         lit "Ability to fit into standard sample holders or test cells.",
         lit "1=Custom only; 5=Adapter needed; 9=Standard holders");
        (lit "Data Format Standardization",
         lit "Output in known, open data formats.",
         lit "1=Proprietary only; 5=Limited; 9=Open formats");
        (lit "Calibration Transferability",
         lit "Ease of applying same calibration across instruments.",
         lit "1=Unique per setup; 5=Transferable w/adjustments; 9=Easily transferable")
      ]);
      (lit "Integration Complexity", [
        (lit "Setup Time",
         lit "Time required to prepare and align instrument/sample.",
         lit "1=Hours; 5=Tens of minutes; 9=Minutes");
        (lit "Data Processing Complexity",
         lit "Difficulty converting raw data into metrics.",
         lit "1=Complex multi-step; 5=Some manual steps; 9=Fully automated");
        (lit "Detection Limit",
         lit "Lowest detectable quantity.",
         lit "1=High limit; 5=Moderate; 9=Very low limit")
      ]);
      (lit "Utility", [
        (lit "Impact on Project KPIs",
         lit "Degree to which characterization results drive design improvements.",
         lit "1=Marginal; 5=Moderate; 9=Key enabler");
        (lit "Standardization Value",
         lit "Adds crucial standardized data for collaborative projects or regulatory approvals.",
         lit "1=Low; 5=Moderate; 9=High synergy")
      ])
    ]);
    (lit "Testing", list_to_map [
      (lit "Maturity", [
        (lit "Test Protocol Stability",
         lit "Frequency of major changes to test procedures.",
         lit "1=Evolving; 5=Mostly stable; 9=Fully standardized");
        (lit "Reliability Under Varied Conditions",
         lit "Consistency of results across different operating conditions.",
         lit "1=Wide variance; 5=Some; 9=Robust");
        (lit "Reference to Industry Standards",
         lit "Alignment with recognized test standards.",
         lit "1=None; 5=Partial; 9=Fully aligned")
      ]);
      (lit "Resource Requirements", [
        (lit "Equipment Depreciation Rate",
         lit "Annual loss in equipment value.",
         lit "1=High; 5=Moderate; 9=Low depreciation");
        (lit "Test Duration per Sample",
         lit "Length of each test cycle.",
         lit "1=Days; 5=Hours; 9=Minutes");
        (lit "Energy Consumption per Cycle",
         lit "Energy used per test run.",
         lit "1=Very high; 5=Moderate; 9=Very low")
      ]);
      (lit "Interoperability", [
        (lit "Universality of Fixtures",
         lit "Ability to use standard fixtures for different sample types.",
         lit "1=Specialized; 5=Adapters needed; 9=Universal");
        (lit "Software Integration Level",
         lit "Ease of linking test control/data acquisition with lab software.",
         lit "1=Manual; 5=Partial integration; 9=Fully automated");
        (lit "Reporting Standardization",
         lit "Ability to produce results in standard reporting formats.",
         lit "1=Proprietary; 5=Limited; 9=Fully compliant")
      ]);
      (lit "Integration Complexity", [
        (lit "Setup Time",
         lit "Time to install and calibrate the test sample.",
         lit "1=Hours; 5=Tens of minutes; 9=Minutes");
        (lit "Range of Test Conditions",
         lit "Diversity of conditions achievable (e.g., temperature, pressure).",
         lit "1=Very narrow; 5=Moderate; 9=Wide range");
        (lit "Fault Diagnosis Tools",
         lit "Ability to detect/diagnose anomalies in real-time.",
         lit "1=None; 5=Basic alarms; 9=Advanced diagnostics")
      ]);
      (lit "Utility", [
        (lit "Relevance to Performance Validation",
         lit "Ensures direct feedback on device or material performance for project goals.",
         lit "1=Low; 5=Medium; 9=High synergy");
        (lit "Data Quality for Scale-up",
         lit "Usefulness of test data for scaling to pilot or commercial applications.",
         lit "1=Marginal; 5=Moderate; 9=Essential")
      ])
    ]);
    (lit "Assessment", list_to_map [
      (lit "Maturity", [
        (lit "Methodological Consensus",
         lit "Level of standardization and consensus.",
         lit "1=None; 5=Some guidance; 9=Fully standardized");
        (lit "Data Quality Requirements",
         lit "Clarity and standardization of data quality metrics.",
         lit "1=Poorly defined; 5=Some guidelines; 9=Well-defined");
        (lit "Update Frequency",
         lit "Frequency of major methodological changes.",
         lit "1=Frequent; 5=Occasional; 9=Very stable")
      ]);
      (lit "Resource Requirements", [
        (lit "Software/Database Licensing",
         lit "Cost of analysis tools and databases.",
         lit "1=Very expensive; 5=Moderate; 9=Free/open-source");
        (lit "Data Acquisition Costs",
         lit "Effort/expense to gather input data.",
         lit "1=Very difficult; 5=Moderate; 9=Easily accessible");
        (lit "Analyst Training",
         lit "Complexity of training required.",
         lit "1=Specialized experts; 5=Skilled professionals; 9=Minimal training")
      ]);
      (lit "Interoperability", [
        (lit "Compatibility with Other Frameworks",
         lit "Integration with other sustainability/economic frameworks.",
         lit "1=Very specialized; 5=Limited; 9=Broad compatibility");
        (lit "Database Integration",
         lit "Ease of importing standard LCI or other datasets.",
         lit "1=None; 5=Some parsing; 9=Direct compatibility");
        (lit "Reporting Standards",
         lit "Compliance with recognized reporting frameworks (e.g., ISO).",
         lit "1=Proprietary; 5=Partial; 9=Fully compliant")
      ]);
      (lit "Integration Complexity", [
        (lit "Time to Results",
         lit "Speed from input to final assessment.",
         lit "1=Weeks; 5=Days; 9=Hours or less");
        (lit "Sensitivity/Scenario Analysis Capability",
         lit "Built-in scenario/uncertainty tools.",
         lit "1=None; 5=Manual; 9=Fully integrated");
        (lit "Scalability Across Systems",
         lit "Suitability from component-level to full supply chain.",
         lit "1=Component-only; 5=Some scaling; 9=Easily scalable")
      ]);
      (lit "Utility", [
        (lit "Decision-Making Impact",
         lit "Does the assessment clearly guide strategic decisions or design changes?",
         lit "1=Minimal; 5=Some; 9=High impact");
        (lit "Regulatory/Compliance Value",
         lit "Helps meet regulations, certifications, or official guidelines.",
         lit "1=Little relevance; 5=Useful; 9=Essential")
      ])
    ])
  ].

(** ** Session state and widgets *)

(** [st.session_state], with the five keys [main] initialises. *)
Module Session.
Record t := mk {
  logged_in : bool;
  current_step : Z;
  user_id : str;
  user_name : str;
  _refresh_flag : bool
}.
End Session.

(** What a run prints through [st.info], [st.warning], [st.success],
    [st.error] and the two [st.markdown] lines of the child step. *)
Inductive Notice :=
  | Info (msg : str)
  | Warning (msg : str)
  | Success (msg : str)
  | Error (msg : str)
  | Markdown (msg : str).

(** The widget values of one run of the script, with the two values the
    run draws from outside: the uuid and the database clock. *)
Record Widgets := mkWidgets {
  passcode_input : str;
  name_input : str;
  login_button : bool;
  uuid4 : str;
  previous_button : bool;
  next_button : bool;
  category_select : nat;
  attribute_select : nat;
  child_cat : nat;
  child_attr : nat;
  child_feat : nat;
  feedback_text : str;
  submit_button : bool;
  delete_button : Z -> bool;
  clock : Z
}.

(** The state a run works on: the session, the table, what was printed. *)
Record World := mkWorld {
  session : Session.t;
  db : DB;
  out : list Notice
}.

Definition say (n : Notice) (w : World) : World :=
  mkWorld (session w) (db w) (out w ++ [n]).

Definition set_current_step (i : Z) (s : Session.t) : Session.t :=
  Session.mk (Session.logged_in s) i (Session.user_id s) (Session.user_name s)
             (Session._refresh_flag s).

(** [st.session_state["_refresh_flag"] = not st.session_state["_refresh_flag"]] *)
Definition toggle_refresh (s : Session.t) : Session.t :=
  Session.mk (Session.logged_in s) (Session.current_step s) (Session.user_id s)
             (Session.user_name s) (negb (Session._refresh_flag s)).

(** [l[i]] on a Python list: negative indices count from the end, [None]
    is IndexError. *)
Definition py_index {A} (l : list A) (i : Z) : option A :=
  let n := Z.of_nat (length l) in
  if 0 <=? i then l !! Z.to_nat i
  else if - n <=? i then l !! Z.to_nat (n + i)
  else None.

(** [st.button(label, disabled=d)]: a disabled button is never pressed. *)
Definition button (disabled pressed : bool) : bool := pressed && negb disabled.

(** [st.selectbox(label, options)]: one of the options, the first one
    until the user picks another. *)
Definition selectbox (options : list str) (choice : nat) : str :=
  default (hd [] options) (options !! choice).

(** ** Feedback widgets *)

Definition display_entry (ui : Widgets) (w : World) (entry : Entry.t) : World :=
  if str_eqb (Entry.user_id entry) (Session.user_id (session w)) then
    if button false (delete_button ui (Entry.id entry)) then
      let '(db', success) :=
        delete_feedback (Entry.id entry) (Session.user_id (session w)) (db w) in
      if success
      then say (Success (lit "Your feedback has been deleted."))
               (mkWorld (toggle_refresh (session w)) db' (out w))
      else say (Error (lit "Failed to delete feedback. Please try again."))
               (mkWorld (session w) db' (out w))
    else w
  else w.

Definition display_feedback_entries (ui : Widgets) (entries : list Entry.t)
    (w : World) : World :=
  match entries with
  | [] => say (Info (lit "No feedback submitted yet for this section.")) w
  | _ => fold_left (display_entry ui) entries w
  end.

Definition collect_feedback (ui : Widgets) (step section_label : str)
    (w : World) : World :=
  if button false (submit_button ui) then
    if str_eqb (strip (feedback_text ui)) [] then
      say (Warning (lit "Please enter some feedback before submitting.")) w
    else
      say (Success (lit "Thank you! Your feedback has been recorded."))
          (mkWorld (toggle_refresh (session w))
                   (add_feedback (clock ui)
                                 (Session.user_id (session w))
                                 (Session.user_name (session w))
                                 step section_label (feedback_text ui) (db w))
                   (out w))
  else w.

(** The tail every step shares: the form, then the list read back. *)
Definition feedback_block `{OrderBy} (ui : Widgets) (step section_label : str)
    (w : World) : World :=
  let w1 := collect_feedback ui step section_label w in
  display_feedback_entries ui (get_feedback step (Some section_label) (db w1)) w1.

(** ** Wizard steps *)

Definition step_introduction `{OrderBy} (ui : Widgets) (w : World) : World :=
  feedback_block ui (lit "Introduction") (lit "GeneralIntro") w.

Definition step_method_categories `{OrderBy} (ui : Widgets) (w : World) : World :=
  let chosen_cat := selectbox (lit "General" :: METHOD_CATEGORIES) (category_select ui) in
  let section_label :=
    if negb (str_eqb chosen_cat (lit "General")) then chosen_cat
    else lit "GeneralCategories" in
  feedback_block ui (lit "Method Categories") section_label w.

Definition step_parent_attributes `{OrderBy} (ui : Widgets) (w : World) : World :=
  let attr_choice := selectbox (lit "General" :: PARENT_ATTRIBUTES) (attribute_select ui) in
  let section_label :=
    if negb (str_eqb attr_choice (lit "General")) then attr_choice
    else lit "GeneralAttributes" in
  feedback_block ui (lit "Parent Attributes") section_label w.

(** What the child step settles before it asks for feedback. *)
Record ChildChoice := mkChildChoice {
  child_feat_choice : str;
  child_description : str;
  child_scoring : str
}.

(** [child_attrs]: the list under [taxonomy[cat_choice][attr_choice]], or
    the empty list when either key is absent. *)
Definition child_attrs_of (taxonomy : gmap str (gmap str (list (str * str * str))))
    (cat_choice attr_choice : str) : list (str * str * str) :=
  match taxonomy !! cat_choice with
  | Some attrs => default [] (attrs !! attr_choice)
  | None => []
  end.

(** The branch on [child_attrs]; the boolean tells that the "No predefined
    child attributes" notice is shown. *)
Definition choose_child (child_attrs : list (str * str * str)) (choice : nat)
    : ChildChoice * bool :=
  match child_attrs with
  | [] => (mkChildChoice (lit "General") [] [], true)
  | _ =>
      let child_feat_options := List.map (fun f => f.1.1) child_attrs in
      let c := selectbox (lit "General" :: child_feat_options) choice in
      if negb (str_eqb c (lit "General")) then
        match List.find (fun f => str_eqb f.1.1 c) child_attrs with
        | Some selected_child =>
            (mkChildChoice c selected_child.1.2 selected_child.2, false)
        | None => (mkChildChoice c [] [], false)
        end
      else (mkChildChoice c [] [], false)
  end.

(** [f"{cat_choice} | {attr_choice} | {child_feat_choice}"] *)
Definition child_section_label (cat_choice attr_choice child_feat_choice : str) : str :=
  cat_choice ++ lit " | " ++ attr_choice ++ lit " | " ++ child_feat_choice.

(** The key the child step derives over a given taxonomy, from the values
    of its three select boxes. *)
Definition child_key (taxonomy : gmap str (gmap str (list (str * str * str))))
    (cat_choice attr_choice : str) (choice : nat) : str :=
  child_section_label cat_choice attr_choice
    (child_feat_choice (choose_child (child_attrs_of taxonomy cat_choice attr_choice) choice).1).

(** The child step over a given taxonomy. *)
Definition child_attributes_step `{OrderBy}
    (taxonomy : gmap str (gmap str (list (str * str * str))))
    (ui : Widgets) (w : World) : World :=
  let cat_choice := selectbox METHOD_CATEGORIES (child_cat ui) in
  let attr_choice := selectbox PARENT_ATTRIBUTES (child_attr ui) in
  let child_attrs := child_attrs_of taxonomy cat_choice attr_choice in
  let '(c, notice) := choose_child child_attrs (child_feat ui) in
  let w1 :=
    if notice
    then say (Info (lit "No predefined child attributes for this combination.")) w
    else w in
  let w2 :=
    if negb (str_eqb (child_feat_choice c) (lit "General"))
    then say (Markdown (lit "**Scoring Range:** " ++ child_scoring c))
             (say (Markdown (lit "**Description:** " ++ child_description c)) w1)
    else w1 in
  let section_label := child_section_label cat_choice attr_choice (child_feat_choice c) in
  feedback_block ui (lit "Child Attributes") section_label w2.

Definition step_child_attributes `{OrderBy} (ui : Widgets) (w : World) : World :=
  child_attributes_step CHILD_ATTRIBUTES_DICT ui w.

Definition step_final_comments `{OrderBy} (ui : Widgets) (w : World) : World :=
  let w1 := feedback_block ui (lit "Final Comments") (lit "OverallFinal") w in
  say (Success (lit "Your participation is greatly appreciated. Thank you for contributing to the development of the IRL framework!")) w1.

(** ** Navigation, login and the script body *)

(** [wizard_navbar]: [None] when [WIZARD_STEPS[current_step]] raises. *)
Definition wizard_navbar (ui : Widgets) (s : Session.t) : option Session.t :=
  let total_steps := Z.of_nat (length WIZARD_STEPS) in
  let current_step := Session.current_step s in
  match py_index WIZARD_STEPS current_step with
  | None => None
  | Some step_name =>
      let s1 :=
        if button (current_step =? 0) (previous_button ui)
        then toggle_refresh (set_current_step (Z.max (current_step - 1) 0) s)
        else s in
      let s2 :=
        if button (current_step =? total_steps - 1) (next_button ui)
        then toggle_refresh
               (set_current_step (Z.min (current_step + 1) (total_steps - 1)) s1)
        else s1 in
      Some s2
  end.

(** The two transitions of the navigation bar: a run in which only
    Previous, or only Next, is pressed. *)
Definition press (prev next : bool) : Widgets :=
  mkWidgets [] [] false [] prev next 0 0 0 0 0 [] false (fun _ => false) 0.

Definition previous (s : Session.t) : option Session.t :=
  wizard_navbar (press true false) s.

Definition next (s : Session.t) : option Session.t :=
  wizard_navbar (press false true) s.

Definition render_current_step `{OrderBy} (ui : Widgets) (w : World) : option World :=
  match py_index WIZARD_STEPS (Session.current_step (session w)) with
  | None => None
  | Some step_name =>
      Some (if str_eqb step_name (lit "Introduction") then step_introduction ui w
            else if str_eqb step_name (lit "Method Categories") then step_method_categories ui w
            else if str_eqb step_name (lit "Parent Attributes") then step_parent_attributes ui w
            else if str_eqb step_name (lit "Child Attributes") then step_child_attributes ui w
            else if str_eqb step_name (lit "Final Comments") then step_final_comments ui w
            else w)
  end.

Definition login_page (ui : Widgets) (w : World) : World :=
  if button false (login_button ui) then
    if str_eqb (passcode_input ui) PASSCODE then
      mkWorld
        (Session.mk true 0 (uuid4 ui)
           (if truthy (strip (name_input ui)) then strip (name_input ui)
            else lit "Anonymous")
           (negb (Session._refresh_flag (session w))))
        (db w) (out w)
    else say (Error (lit "Incorrect passcode. Please try again.")) w
  else w.

(** The session state of a browser session before its first run. *)
Definition fresh_session : Session.t := Session.mk false 0 [] [] false.

(** One run of [main]: [ss] is [None] on the first run of a browser
    session, [file] is the database file as the run finds it. *)
Definition main `{OrderBy} (ui : Widgets) (ss : option Session.t) (file : option DB)
    : option World :=
  let w := mkWorld (default fresh_session ss) (init_db file) [] in
  if negb (Session.logged_in (session w)) then Some (login_page ui w)
  else
    match wizard_navbar ui (session w) with
    | None => None
    | Some s => render_current_step ui (mkWorld s (db w) (out w))
    end.

(** ** Vocabulary of the statements and sample inputs *)

(** Rows are in increasing rowid order and no rowid exceeds the counter. *)
Definition wf_db (d : DB) : Prop :=
  StronglySorted Z.lt (List.map TableRow.id (rows d))
  /\ Forall (fun r => TableRow.id r <= seq d) (rows d).

(** The row filter of the two-column query. *)
Definition matches (step section : str) (r : TableRow.t) : bool :=
  str_eqb (TableRow.step r) step && str_eqb (TableRow.section r) section.

Definition created_le (a b : Entry.t) : Prop :=
  Entry.created_at a <= Entry.created_at b.

(** Chronological, and by [id] among equal timestamps. *)
Definition created_then_id (a b : Entry.t) : Prop :=
  Entry.created_at a < Entry.created_at b
  \/ (Entry.created_at a = Entry.created_at b /\ Entry.id a < Entry.id b).

Definition row_created_then_id (a b : TableRow.t) : Prop :=
  TableRow.created_at a < TableRow.created_at b
  \/ (TableRow.created_at a = TableRow.created_at b /\ TableRow.id a < TableRow.id b).

Definition intro_step : str := lit "Introduction".
Definition intro_key : str := lit "GeneralIntro".

(** Two comments on the Introduction step stored within the same second. *)
Definition same_second : DB :=
  add_feedback 100 (lit "user-b") (lit "B") intro_step intro_key (lit "second")
    (add_feedback 100 (lit "user-a") (lit "A") intro_step intro_key (lit "first")
       empty_db).

Definition typed (text : str) : Widgets :=
  mkWidgets [] [] false [] false false 0 0 0 0 0 text true (fun _ => false) 100.

Definition session_a : Session.t :=
  Session.mk true 0 (lit "user-a") (lit "A") false.

Definition login_as (name : str) : Widgets :=
  mkWidgets PASSCODE name true (lit "user-a") false false 0 0 0 0 0 [] false
            (fun _ => false) 100.

Definition at_step (i : Z) : Session.t :=
  Session.mk true i (lit "user-a") (lit "A") false.

(** Everything of the session but the refresh flag. *)
Definition same_position (s s' : Session.t) : Prop :=
  Session.logged_in s' = Session.logged_in s
  /\ Session.current_step s' = Session.current_step s
  /\ Session.user_id s' = Session.user_id s
  /\ Session.user_name s' = Session.user_name s.

(** The sessions a browser can hold after any number of runs, whatever
    the other sessions did to the database file in between. *)
Inductive reachable `{OrderBy} : Session.t -> Prop :=
  | reach_first ui file w :
      main ui None file = Some w -> reachable (session w)
  | reach_run s ui file w :
      reachable s -> main ui (Some s) file = Some w -> reachable (session w).

(** The three select boxes of the child step, read over a taxonomy. *)
Definition child_selection (taxonomy : gmap str (gmap str (list (str * str * str))))
    (ui : Widgets) : str * str * str :=
  let cat_choice := selectbox METHOD_CATEGORIES (child_cat ui) in
  let attr_choice := selectbox PARENT_ATTRIBUTES (child_attr ui) in
  (cat_choice, attr_choice,
   child_feat_choice
     (choose_child (child_attrs_of taxonomy cat_choice attr_choice) (child_feat ui)).1).

(** The key derived from a selection. *)
Definition selection_key (sel : str * str * str) : str :=
  child_section_label sel.1.1 sel.1.2 sel.2.

(** The vertical bar of the delimiter. *)
Definition bar : N := 124.

Definition bar_free (s : str) : bool := forallb (fun c => negb (c =? bar)%N) s.

(** A taxonomy in which Testing has no child attribute under Utility. *)
Definition sparse_taxonomy : gmap str (gmap str (list (str * str * str))) :=
  <[lit "Testing" := {[ lit "Utility" := [] ]}]> CHILD_ATTRIBUTES_DICT.

Definition pick_testing_utility : Widgets :=
  mkWidgets [] [] false [] false false 0 0 3 4 2 [] false (fun _ => false) 100.

(** A comment stored without a name. *)
Definition nameless : DB :=
  add_feedback 100 (lit "user-a") [] intro_step intro_key (lit "first") empty_db.

Definition press_all_deletes : Widgets :=
  mkWidgets [] [] false [] false false 0 0 0 0 0 [] false (fun _ => true) 100.

Definition session_b : Session.t :=
  Session.mk true 0 (lit "user-b") (lit "B") false.

Definition wrong_passcode : Widgets :=
  mkWidgets (lit "decode") (lit "A") true (lit "user-a") true true 0 0 0 0 0
            (lit "text") true (fun _ => true) 100.

(** [w'] is what a feedback form and list under [name] leave, started on
    a state with the session and table of [w], under a non-empty key. *)
Definition block_of `{OrderBy} (ui : Widgets) (name : str) (w w' : World) : Prop :=
  exists key w0,
    key <> [] /\ session w0 = session w /\ db w0 = db w
    /\ session w' = session (feedback_block ui name key w0)
    /\ db w' = db (feedback_block ui name key w0).

Definition submit_at (text : str) : Widgets :=
  mkWidgets [] [] false [] false false 0 0 0 0 0 text true (fun _ => false) 200.

Definition names_ok (children : list (str * str * str)) : bool :=
  bool_decide (NoDup (List.map (fun f => f.1.1) children))
  && forallb (fun f => negb (str_eqb f.1.1 (lit "General"))) children.

(** ** Facts on [strip] *)

Lemma lstrip_blank s : blank s = true -> lstrip s = [].
Proof.
  induction s as [|c s IH]; simpl; [done|].
  intros [Hc Hs]%andb_prop. rewrite Hc. auto.
Qed.

Lemma lstrip_nil_blank s : lstrip s = [] -> blank s = true.
Proof.
  induction s as [|c s IH]; simpl; [done|].
  destruct (isspace c); [auto | discriminate].
Qed.

Lemma blank_app a b : blank (a ++ b) = blank a && blank b.
Proof. unfold blank. apply forallb_app. Qed.

Lemma blank_rev s : blank (rev s) = blank s.
Proof.
  induction s as [|c s IH]; simpl; [done|].
  rewrite blank_app, IH. simpl. rewrite andb_true_r. apply andb_comm.
Qed.

(** [lstrip] drops a blank prefix and keeps the rest. *)
Lemma lstrip_split s : exists p, s = p ++ lstrip s /\ blank p = true.
Proof.
  induction s as [|c s (p & Hp & Hb)]; simpl.
  - by exists [].
  - destruct (isspace c) eqn:Hc.
    + exists (c :: p). simpl. rewrite Hc, Hb. split; [by f_equal | done].
    + by exists [].
Qed.

Lemma strip_nil_iff s : strip s = [] <-> blank s = true.
Proof.
  unfold strip, rstrip. split.
  - intros H.
    destruct (lstrip_split s) as (p & Hp & Hb).
    assert (Hr : lstrip (rev (lstrip s)) = []).
    { apply (f_equal (@rev N)) in H. by rewrite rev_involutive in H. }
    apply lstrip_nil_blank in Hr. rewrite blank_rev in Hr.
    rewrite Hp, blank_app, Hb, Hr. done.
  - intros H. by rewrite (lstrip_blank s H).
Qed.

Lemma strip_blank s : blank s = true -> strip s = [].
Proof. apply strip_nil_iff. Qed.

Lemma truthy_strip s : truthy (strip s) = negb (blank s).
Proof.
  destruct (blank s) eqn:Hb.
  - by rewrite (strip_blank s Hb).
  - destruct (strip s) eqn:Hs; [|done].
    apply strip_nil_iff in Hs. congruence.
Qed.

(** The stripped text starts and ends with a non-space character. *)
Lemma lstrip_head s c t : lstrip s = c :: t -> isspace c = false.
Proof.
  induction s as [|d s IH]; simpl; [done|].
  destruct (isspace d) eqn:Hd; [auto|].
  intros [= <- _]. done.
Qed.

(** ** Sorting by insertion keeps the ORDER BY promise *)

Section insertion.
Variable before : TableRow.t -> TableRow.t -> bool.
Hypothesis before_le : forall a b, before a b = true -> le_created a b.
Hypothesis before_ge : forall a b, before a b = false -> le_created b a.

Lemma insert_row_perm x l : Permutation (x :: l) (insert_row before x l).
Proof.
  induction l as [|y l IH]; simpl; [done|].
  destruct (before x y); [done|].
  rewrite perm_swap. by constructor.
Qed.

Lemma insertion_sort_perm l : Permutation l (insertion_sort before l).
Proof.
  induction l as [|x l IH]; simpl; [done|].
  rewrite <- insert_row_perm. by constructor.
Qed.

Lemma insert_row_sorted x l :
  StronglySorted le_created l -> StronglySorted le_created (insert_row before x l).
Proof.
  induction 1 as [|y l Hs IH Hy]; simpl.
  - repeat constructor.
  - destruct (before x y) eqn:Hb.
    + constructor; [by constructor|].
      apply before_le in Hb. constructor; [done|].
      eapply Forall_impl; [exact Hy|].
      unfold le_created in *. intros; lia.
    + constructor; [done|].
      rewrite <- insert_row_perm. constructor; [|done].
      by apply before_ge.
Qed.

Lemma insertion_sort_sorted l : StronglySorted le_created (insertion_sort before l).
Proof.
  induction l as [|x l IH]; simpl; [constructor|].
  by apply insert_row_sorted.
Qed.
End insertion.

Lemma scan_first_le a b : scan_first a b = true -> le_created a b.
Proof. unfold scan_first, le_created. lia. Qed.

Lemma scan_first_ge a b : scan_first a b = false -> le_created b a.
Proof. unfold scan_first, le_created. lia. Qed.

(** The engine the program runs, SQLite: the scan in rowid order and the
    sort that keeps scan order among equal timestamps. *)
Definition rowid_ties : OrderBy :=
  Build_OrderBy (insertion_sort scan_first)
    (insertion_sort_perm scan_first)
    (insertion_sort_sorted scan_first scan_first_le scan_first_ge).

(** ** The table keeps its primary key *)

Lemma str_eqb_eq a b : str_eqb a b = true <-> a = b.
Proof. unfold str_eqb. apply bool_decide_eq_true. Qed.

Lemma str_eqb_refl a : str_eqb a a = true.
Proof. by apply str_eqb_eq. Qed.

Lemma delete_where_spec record_id user_id r :
  delete_where record_id user_id r = true
  <-> TableRow.id r = record_id /\ TableRow.user_id r = user_id.
Proof.
  unfold delete_where. rewrite andb_true_iff, str_eqb_eq, Z.eqb_eq. done.
Qed.


Lemma wf_empty_db : wf_db empty_db.
Proof. split; simpl; constructor. Qed.

Lemma StronglySorted_snoc (l : list Z) x :
  StronglySorted Z.lt l -> Forall (fun y => y < x) l -> StronglySorted Z.lt (l ++ [x]).
Proof.
  induction 1 as [|y l Hs IH Hy]; simpl; intros Hx.
  - repeat constructor.
  - apply Forall_cons_1 in Hx as [Hyx Hx].
    constructor; [auto|].
    apply Forall_app. split; [done|]. by constructor.
Qed.

Lemma wf_add_feedback now uid uname step section body d :
  wf_db d -> wf_db (add_feedback now uid uname step section body d).
Proof.
  intros [Hs Hb]. unfold add_feedback, next_rowid. split; simpl.
  - rewrite List.map_app. simpl. apply StronglySorted_snoc; [done|].
    apply Forall_map. eapply Forall_impl; [exact Hb|]. simpl. intros; lia.
  - apply Forall_app. split.
    + eapply Forall_impl; [exact Hb|]. simpl. intros; lia.
    + constructor; [simpl; lia | constructor].
Qed.

Lemma StronglySorted_map_filter (f : TableRow.t -> bool) l :
  StronglySorted Z.lt (List.map TableRow.id l) ->
  StronglySorted Z.lt (List.map TableRow.id (List.filter f l)).
Proof.
  induction l as [|r l IH]; simpl; [done|].
  intros [Hr Hl]%StronglySorted_cons.
  destruct (f r); simpl; [|auto].
  constructor; [auto|].
  rewrite List.Forall_forall in Hr |- *.
  intros y Hy. apply Hr.
  apply in_map_iff in Hy as (r' & <- & Hin).
  apply List.filter_In in Hin as [Hin _].
  apply in_map_iff. eauto.
Qed.

Lemma wf_delete_feedback record_id user_id d :
  wf_db d -> wf_db (delete_feedback record_id user_id d).1.
Proof.
  intros [Hs Hb]. split; simpl.
  - by apply StronglySorted_map_filter.
  - rewrite List.Forall_forall in Hb |- *.
    intros r [Hr _]%List.filter_In. auto.
Qed.

(** With the primary key in force a rowid names at most one row. *)
Lemma wf_id_unique d r1 r2 :
  wf_db d -> In r1 (rows d) -> In r2 (rows d) ->
  TableRow.id r1 = TableRow.id r2 -> r1 = r2.
Proof.
  intros [Hs _]. induction (rows d) as [|r l IH]; simpl; [done|].
  simpl in Hs. apply StronglySorted_cons in Hs as [Hr Hl].
  rewrite List.Forall_forall in Hr.
  intros [E1|H1] [E2|H2] Heq; subst; auto.
  - assert (TableRow.id r1 < TableRow.id r2); [|lia].
    apply Hr, in_map_iff. eauto.
  - assert (TableRow.id r2 < TableRow.id r1); [|lia].
    apply Hr, in_map_iff. eauto.
Qed.

Lemma filter_none {A} (f : A -> bool) l :
  (forall x, In x l -> f x = false) -> List.filter f l = [].
Proof.
  induction l as [|x l IH]; simpl; [done|].
  intros H. rewrite (H x) by auto. apply IH. auto.
Qed.

Lemma filter_all {A} (f : A -> bool) l :
  (forall x, In x l -> f x = true) -> List.filter f l = l.
Proof.
  induction l as [|x l IH]; simpl; [done|].
  intros H. rewrite (H x) by auto. f_equal. apply IH. auto.
Qed.

Lemma filter_nonempty_exists {A} (f : A -> bool) l :
  List.filter f l <> [] <-> exists x, In x l /\ f x = true.
Proof.
  split.
  - destruct (List.filter f l) as [|x t] eqn:E; [done|]. intros _.
    exists x. apply List.filter_In. rewrite E. by left.
  - intros (x & Hin & Hf) E.
    assert (Hx : In x (List.filter f l)) by (apply List.filter_In; auto).
    by rewrite E in Hx.
Qed.

Lemma delete_feedback_true_iff record_id user_id d :
  (delete_feedback record_id user_id d).2 = true
  <-> exists r, In r (rows d) /\ TableRow.id r = record_id
                /\ TableRow.user_id r = user_id.
Proof.
  unfold delete_feedback. simpl. rewrite Z.ltb_lt.
  transitivity (List.filter (delete_where record_id user_id) (rows d) <> []).
  - destruct (List.filter _ _); simpl; split; (done || lia).
  - rewrite filter_nonempty_exists.
    split; intros (r & Hr & H); exists r; (split; [done|]);
      by apply delete_where_spec.
Qed.

(** ** C1 *)

(** C1.  [delete_feedback(record_id, user_id)] returns [True] exactly when
    the table holds a row with that [id] whose [user_id] column equals the
    given one.  When it returns [False] (unknown id, another user's row, a
    row deleted before) the database is unchanged, and deleting again
    after any call returns [False] and changes nothing. *)
Theorem delete_feedback_owner_only record_id user_id d :
  let '(d', ok) := delete_feedback record_id user_id d in
  (ok = true <-> exists r, In r (rows d) /\ TableRow.id r = record_id
                           /\ TableRow.user_id r = user_id)
  /\ (ok = false -> d' = d)
  /\ delete_feedback record_id user_id d' = (d', false).
Proof.
  pose proof (delete_feedback_true_iff record_id user_id d) as Hiff.
  destruct (delete_feedback record_id user_id d) as [d' ok] eqn:E.
  simpl in Hiff. split; [exact Hiff|].
  unfold delete_feedback in E. injection E as Ed Eok.
  assert (Hgone : forall x, In x (rows d') ->
                            delete_where record_id user_id x = false).
  { subst d'. simpl. intros x [_ Hx]%List.filter_In.
    by apply negb_true_iff. }
  split.
  - intros ->.
    assert (Hnone : List.filter (delete_where record_id user_id) (rows d) = []).
    { destruct (List.filter (delete_where record_id user_id) (rows d)) eqn:F.
      - reflexivity.
      - apply Z.ltb_ge in Eok. simpl length in Eok. lia. }
    subst d'. destruct d as [l s]. simpl in *. f_equal.
    apply filter_all. intros x Hx.
    destruct (delete_where record_id user_id x) eqn:Hd; [|done].
    assert (In x (List.filter (delete_where record_id user_id) l))
      by (apply List.filter_In; auto).
    by rewrite Hnone in *.
  - unfold delete_feedback.
    rewrite (filter_none _ _ Hgone). simpl.
    rewrite filter_all; [by destruct d'; subst|].
    intros x Hx. by rewrite (Hgone x Hx).
Qed.

(** A successful delete removes the one row with that id and keeps every
    other row, in order. *)
Lemma delete_feedback_removes record_id user_id d :
  wf_db d -> (delete_feedback record_id user_id d).2 = true ->
  rows (delete_feedback record_id user_id d).1
  = List.filter (fun r => negb (TableRow.id r =? record_id)) (rows d).
Proof.
  intros Hwf [r (Hr & Hid & Hu)]%delete_feedback_true_iff. simpl.
  apply List.filter_ext_in. intros x Hx. unfold delete_where.
  destruct (TableRow.id x =? record_id) eqn:Hx'; [|done].
  apply Z.eqb_eq in Hx'.
  assert (x = r) as -> by (apply (wf_id_unique d); [done..|congruence]).
  by rewrite Hu, str_eqb_refl.
Qed.

(** Another session cannot delete the first comment of [same_second];
    its author can, once. *)
Example delete_by_other_user :
  delete_feedback 1 (lit "user-b") same_second = (same_second, false).
Proof. vm_compute. reflexivity. Qed.

Example delete_by_author :
  let '(d1, ok1) := delete_feedback 1 (lit "user-a") same_second in
  let '(d2, ok2) := delete_feedback 1 (lit "user-a") d1 in
  (ok1, List.map TableRow.id (rows d1), ok2, List.map TableRow.id (rows d2))
  = (true, [2], false, [2]).
Proof. vm_compute. reflexivity. Qed.

Example delete_unknown_id :
  delete_feedback 7 (lit "user-a") same_second = (same_second, false).
Proof. vm_compute. reflexivity. Qed.

(** ** C10 *)



(** ** What [get_feedback] returns *)

Lemma matches_spec step section r :
  matches step section r = true
  <-> TableRow.step r = step /\ TableRow.section r = section.
Proof. unfold matches. by rewrite andb_true_iff, !str_eqb_eq. Qed.

Lemma where_clause_section step section :
  section <> [] -> where_clause step (Some section) = matches step section.
Proof. intros Hne. unfold where_clause. by destruct section. Qed.

Lemma where_clause_empty step : where_clause step (Some []) = where_clause step None.
Proof. reflexivity. Qed.

Lemma sorted_entries l :
  StronglySorted le_created l -> StronglySorted created_le (List.map entry_of_row l).
Proof.
  induction 1 as [|r l Hs IH Hr]; simpl; constructor; [done|].
  apply Forall_map. eapply Forall_impl; [exact Hr|]. done.
Qed.

Lemma get_feedback_In `{OrderBy} step section d e :
  In e (get_feedback step section d)
  <-> exists r, In r (rows d) /\ where_clause step section r = true
                /\ e = entry_of_row r.
Proof.
  unfold get_feedback. rewrite in_map_iff. split.
  - intros (r & <- & Hr).
    apply (Permutation_in _ (Permutation_sym (order_by_perm _))) in Hr.
    apply List.filter_In in Hr as [Hr Hw]. eauto.
  - intros (r & Hr & Hw & ->). exists r. split; [done|].
    apply (Permutation_in _ (order_by_perm _)).
    by apply List.filter_In.
Qed.

(** Selection and chronological order follow from the ORDER BY clause
    alone: for a non-empty section key, [get_feedback(step, section)]
    returns one entry for each stored row whose [step] and [section]
    columns equal the arguments and nothing else, in non-decreasing
    [created_at] order. *)
Lemma get_feedback_matching_chronological `{OrderBy} step section d :
  section <> [] ->
  Permutation (List.map entry_of_row (List.filter (matches step section) (rows d)))
              (get_feedback step (Some section) d)
  /\ (forall e, In e (get_feedback step (Some section) d)
                <-> exists r, In r (rows d) /\ TableRow.step r = step
                              /\ TableRow.section r = section
                              /\ e = entry_of_row r)
  /\ Forall (fun e => Entry.step e = step /\ Entry.section e = section)
            (get_feedback step (Some section) d)
  /\ StronglySorted created_le (get_feedback step (Some section) d).
Proof.
  intros Hne.
  assert (Hin : forall e, In e (get_feedback step (Some section) d)
                <-> exists r, In r (rows d) /\ TableRow.step r = step
                              /\ TableRow.section r = section
                              /\ e = entry_of_row r).
  { intros e. rewrite get_feedback_In, where_clause_section by done.
    split; intros (r & Hr & Hm & He); exists r.
    - apply matches_spec in Hm as [? ?]. done.
    - split; [done|]. split; [|tauto]. apply matches_spec. tauto. }
  split; [|split; [exact Hin|split]].
  - unfold get_feedback. rewrite where_clause_section by done.
    apply Permutation_map, order_by_perm.
  - apply List.Forall_forall. intros e (r & _ & Hs & Hsec & ->)%Hin. done.
  - apply sorted_entries, order_by_sorted.
Qed.

(** Inserting a row whose rowid is below all those placed keeps the rows
    ordered by timestamp, then rowid. *)
Lemma insert_scan_first_lex x l :
  Forall (fun y => TableRow.id x < TableRow.id y) l ->
  StronglySorted row_created_then_id l ->
  StronglySorted row_created_then_id (insert_row scan_first x l).
Proof.
  intros Hid Hs. revert Hid.
  induction Hs as [|y l Hs IH Hy]; simpl; intros Hid.
  - repeat constructor.
  - apply Forall_cons_1 in Hid as [Hxy Hid].
    unfold scan_first. destruct (Z.leb_spec (TableRow.created_at x) (TableRow.created_at y)).
    + constructor; [by constructor|].
      constructor; [unfold row_created_then_id; lia|].
      rewrite List.Forall_forall in Hy, Hid |- *.
      intros z Hz. specialize (Hy z Hz). specialize (Hid z Hz).
      unfold row_created_then_id in *. lia.
    + constructor; [auto|].
      rewrite <- (insert_row_perm scan_first).
      constructor; [unfold row_created_then_id; lia | done].
Qed.

Lemma insertion_sort_scan_first_lex l :
  StronglySorted Z.lt (List.map TableRow.id l) ->
  StronglySorted row_created_then_id (insertion_sort scan_first l).
Proof.
  induction l as [|x l IH]; simpl; [constructor|].
  intros [Hx Hl]%StronglySorted_cons.
  apply insert_scan_first_lex; [|auto].
  rewrite <- (insertion_sort_perm scan_first).
  rewrite List.Forall_forall in Hx |- *.
  intros y Hy. apply Hx, in_map_iff. eauto.
Qed.

(** On a table that has its primary key the entries come back by
    timestamp, then [id]. *)
Lemma get_feedback_rowid_ties step section d :
  wf_db d ->
  StronglySorted created_then_id (@get_feedback rowid_ties step section d).
Proof.
  intros [Hs _]. unfold get_feedback. simpl.
  pose proof (insertion_sort_scan_first_lex _
                (StronglySorted_map_filter (where_clause step section) _ Hs)) as Hl.
  induction Hl as [|r l Hl IH Hr]; simpl; constructor; [done|].
  apply Forall_map. eapply Forall_impl; [exact Hr|]. done.
Qed.

(** Rows with the same timestamp keep their place among themselves when
    a row is inserted, and so through the whole sort. *)
Lemma insert_scan_first_ties t x l :
  List.filter (fun r => TableRow.created_at r =? t) (insert_row scan_first x l)
  = List.filter (fun r => TableRow.created_at r =? t) (x :: l).
Proof.
  induction l as [|y l IH]; [done|].
  cbn [insert_row]. unfold scan_first at 1.
  destruct (Z.leb_spec (TableRow.created_at x) (TableRow.created_at y)); [done|].
  cbn [List.filter] in IH |- *. rewrite IH.
  destruct (Z.eqb_spec (TableRow.created_at y) t),
           (Z.eqb_spec (TableRow.created_at x) t); (done || lia).
Qed.

Lemma insertion_sort_scan_first_ties t l :
  List.filter (fun r => TableRow.created_at r =? t) (insertion_sort scan_first l)
  = List.filter (fun r => TableRow.created_at r =? t) l.
Proof.
  induction l as [|x l IH]; [done|].
  simpl insertion_sort. rewrite insert_scan_first_ties. simpl. by rewrite IH.
Qed.

Lemma filter_entries_at t l :
  List.filter (fun e => Entry.created_at e =? t) (List.map entry_of_row l)
  = List.map entry_of_row (List.filter (fun r => TableRow.created_at r =? t) l).
Proof.
  induction l as [|r l IH]; simpl; [done|].
  destruct (TableRow.created_at r =? t); simpl; by rewrite IH.
Qed.

(** ** C2 *)

(** C2.  For every step name and every non-empty section key,
    [get_feedback(step, section)] returns one entry for each stored row
    whose [step] and [section] columns equal the arguments and nothing
    else, in non-decreasing [created_at] order; the entries of one and the
    same [created_at] come in the order their rows have in the table, the
    order of insertion, which on a table that has its primary key is the
    order of their ids. *)
Theorem get_feedback_chronological_ties_by_id step section d :
  section <> [] ->
  Permutation (List.map entry_of_row (List.filter (matches step section) (rows d)))
              (@get_feedback rowid_ties step (Some section) d)
  /\ (forall e, In e (@get_feedback rowid_ties step (Some section) d)
                <-> exists r, In r (rows d) /\ TableRow.step r = step
                              /\ TableRow.section r = section
                              /\ e = entry_of_row r)
  /\ Forall (fun e => Entry.step e = step /\ Entry.section e = section)
            (@get_feedback rowid_ties step (Some section) d)
  /\ StronglySorted created_le (@get_feedback rowid_ties step (Some section) d)
  /\ (forall t,
        List.filter (fun e => Entry.created_at e =? t)
                    (@get_feedback rowid_ties step (Some section) d)
        = List.map entry_of_row
            (List.filter (fun r => TableRow.created_at r =? t)
                         (List.filter (matches step section) (rows d))))
  /\ (wf_db d ->
      StronglySorted created_then_id
                     (@get_feedback rowid_ties step (Some section) d)).
Proof.
  intros Hne.
  destruct (@get_feedback_matching_chronological rowid_ties step section d Hne)
    as (Hperm & Hin & Hall & Hsorted).
  split; [exact Hperm|]. split; [exact Hin|]. split; [exact Hall|].
  split; [exact Hsorted|]. split.
  - intros t. unfold get_feedback. simpl.
    rewrite filter_entries_at, insertion_sort_scan_first_ties.
    by rewrite where_clause_section.
  - apply get_feedback_rowid_ties.
Qed.

Lemma get_feedback_chronological_ties_by_id_witness :
  intro_key <> []
  /\ wf_db same_second
  /\ List.map (fun e => (Entry.id e, Entry.created_at e))
       (@get_feedback rowid_ties intro_step (Some intro_key) same_second)
     = [(1, 100); (2, 100)]
  /\ StronglySorted created_then_id
       (@get_feedback rowid_ties intro_step (Some intro_key) same_second).
Proof.
  assert (Hne : intro_key <> []) by (vm_compute; discriminate).
  assert (Hwf : wf_db same_second)
    by (do 2 apply wf_add_feedback; apply wf_empty_db).
  split; [exact Hne|]. split; [exact Hwf|]. split; [vm_compute; reflexivity|].
  exact (proj2 (proj2 (proj2 (proj2 (proj2
           (get_feedback_chronological_ties_by_id intro_step intro_key
              same_second Hne))))) Hwf).
Defined.

(** A third comment stamped before the two of [same_second] (the clock was
    set back) is listed first; the two keep their order. *)
Example get_feedback_earlier_stamp_first :
  List.map (fun e => (Entry.id e, Entry.created_at e))
    (@get_feedback rowid_ties intro_step (Some intro_key)
       (add_feedback 99 (lit "user-a") (lit "A") intro_step intro_key
          (lit "third") same_second))
  = [(3, 99); (1, 100); (2, 100)].
Proof. vm_compute. reflexivity. Qed.

(** ** C9 *)

(** C9.  [get_feedback(step, "")] is [get_feedback(step)]: the empty string
    is falsy, so the one-column query runs and every row of the step is
    returned whatever its [section]; there is no filtering on an empty
    [section] column. *)
Theorem get_feedback_empty_section_is_none `{OrderBy} step d :
  get_feedback step (Some []) d = get_feedback step None d
  /\ (forall e, In e (get_feedback step (Some []) d)
                <-> exists r, In r (rows d) /\ TableRow.step r = step
                              /\ e = entry_of_row r)
  /\ length (get_feedback step (Some []) d)
     = length (List.filter (fun r => str_eqb (TableRow.step r) step) (rows d)).
Proof.
  split; [reflexivity|]. split.
  - intros e. rewrite get_feedback_In. simpl.
    by setoid_rewrite str_eqb_eq.
  - unfold get_feedback. rewrite length_map.
    symmetry. apply Permutation_length, order_by_perm.
Qed.

(** A step with comments under two sections: the empty section argument
    returns both. *)
Lemma get_feedback_empty_section_is_none_witness :
  List.map Entry.section
    (@get_feedback rowid_ties intro_step (Some [])
       (add_feedback 101 (lit "user-a") (lit "A") intro_step (lit "Other")
          (lit "third") same_second))
  = [intro_key; intro_key; lit "Other"]
  /\ @get_feedback rowid_ties intro_step (Some [])
       (add_feedback 101 (lit "user-a") (lit "A") intro_step (lit "Other")
          (lit "third") same_second)
     = @get_feedback rowid_ties intro_step None
         (add_feedback 101 (lit "user-a") (lit "A") intro_step (lit "Other")
            (lit "third") same_second).
Proof.
  split; [vm_compute; reflexivity|].
  exact (proj1 (@get_feedback_empty_section_is_none rowid_ties intro_step
                  (add_feedback 101 (lit "user-a") (lit "A") intro_step
                     (lit "Other") (lit "third") same_second))).
Defined.

(** ** Stripping twice *)

Lemma lstrip_nonspace c t : isspace c = false -> lstrip (c :: t) = c :: t.
Proof. intros Hc. simpl. by rewrite Hc. Qed.

Lemma lstrip_idem s : lstrip (lstrip s) = lstrip s.
Proof.
  destruct (lstrip s) as [|c t] eqn:E; [done|].
  apply lstrip_nonspace. by apply (lstrip_head s c t).
Qed.

Lemma lstrip_keeps_last p c :
  isspace c = false -> exists q, lstrip (p ++ [c]) = q ++ [c].
Proof.
  intros Hc. induction p as [|d p (q & Hq)]; simpl.
  - rewrite Hc. by exists [].
  - destruct (isspace d); [by exists q|]. by exists (d :: p).
Qed.

Lemma rstrip_idem s : rstrip (rstrip s) = rstrip s.
Proof. unfold rstrip. by rewrite rev_involutive, lstrip_idem. Qed.

Lemma lstrip_rstrip_lstrip s : lstrip (rstrip (lstrip s)) = rstrip (lstrip s).
Proof.
  destruct (lstrip s) as [|c t] eqn:E; [done|].
  pose proof (lstrip_head s c t E) as Hc.
  unfold rstrip. simpl rev.
  destruct (lstrip_keeps_last (rev t) c Hc) as (q & ->).
  rewrite rev_app_distr. simpl. by rewrite Hc.
Qed.

(** A stripped string has nothing left to strip at either end. *)
Lemma strip_idem s : strip (strip s) = strip s.
Proof. unfold strip. by rewrite lstrip_rstrip_lstrip, rstrip_idem. Qed.

Lemma strip_lstrip s : lstrip (strip s) = strip s.
Proof. apply lstrip_rstrip_lstrip. Qed.

Lemma strip_rstrip s : rstrip (strip s) = strip s.
Proof. apply rstrip_idem. Qed.

(** ** C4 *)

(** C4.  When Submit Feedback is pressed with a body that is empty or all
    whitespace, [collect_feedback] never calls the store: the database is
    the same, with as many rows, the session is untouched and a warning is
    printed.  With any other body one row is appended, carrying the
    stripped (hence non-empty) body, the session's user id and name, the
    step and the section key. *)
Theorem collect_feedback_rejects_blank ui step section_label w :
  submit_button ui = true ->
  (blank (feedback_text ui) = true ->
     db (collect_feedback ui step section_label w) = db w
     /\ length (rows (db (collect_feedback ui step section_label w)))
        = length (rows (db w))
     /\ session (collect_feedback ui step section_label w) = session w
     /\ out (collect_feedback ui step section_label w)
        = out w ++ [Warning (lit "Please enter some feedback before submitting.")])
  /\ (blank (feedback_text ui) = false ->
      exists r,
        rows (db (collect_feedback ui step section_label w)) = rows (db w) ++ [r]
        /\ TableRow.feedback r = strip (feedback_text ui)
        /\ TableRow.feedback r <> []
        /\ TableRow.user_id r = Session.user_id (session w)
        /\ TableRow.user_name r = Session.user_name (session w)
        /\ TableRow.step r = step /\ TableRow.section r = section_label).
Proof.
  intros Hsub. unfold collect_feedback, button. rewrite Hsub. simpl.
  split; intros Hb.
  - rewrite (strip_blank _ Hb). by rewrite str_eqb_refl.
  - assert (Hne : strip (feedback_text ui) <> []).
    { intros E%strip_nil_iff. congruence. }
    destruct (str_eqb (strip (feedback_text ui)) []) eqn:E.
    + by apply str_eqb_eq in E.
    + simpl. eexists. split; [reflexivity|]. done.
Qed.

Lemma collect_feedback_rejects_blank_witness :
  submit_button (typed (lit "  ")) = true
  /\ blank (feedback_text (typed (lit "  "))) = true
  /\ db (collect_feedback (typed (lit "  ")) intro_step intro_key
           (mkWorld session_a same_second []))
     = same_second.
Proof.
  split; [reflexivity|]. split; [reflexivity|].
  exact (proj1 (proj1 (collect_feedback_rejects_blank (typed (lit "  "))
                         intro_step intro_key (mkWorld session_a same_second [])
                         eq_refl) eq_refl)).
Defined.

(** Without the button nothing happens at all. *)
Lemma collect_feedback_idle ui step section_label w :
  submit_button ui = false -> collect_feedback ui step section_label w = w.
Proof. intros Hs. unfold collect_feedback, button. by rewrite Hs. Qed.

(** Through [collect_feedback] no stored body is ever empty. *)
Lemma collect_feedback_bodies ui step section_label w :
  Forall (fun r => TableRow.feedback r <> []) (rows (db w)) ->
  Forall (fun r => TableRow.feedback r <> [])
         (rows (db (collect_feedback ui step section_label w))).
Proof.
  intros Hall. unfold collect_feedback.
  destruct (button false (submit_button ui)); [|done].
  destruct (str_eqb (strip (feedback_text ui)) []) eqn:E; simpl; [done|].
  apply Forall_app. split; [done|].
  constructor; [|constructor]. simpl. intros Hnil.
  rewrite Hnil, str_eqb_refl in E. discriminate.
Qed.

(** ** C7 *)

(** C7.  After a login with the right passcode, a name that is empty or all
    whitespace gives the session the name "Anonymous"; any other name is
    kept stripped of the whitespace at both ends. *)
Theorem login_name_default ui w :
  login_button ui = true -> passcode_input ui = PASSCODE ->
  (blank (name_input ui) = true ->
     Session.user_name (session (login_page ui w)) = lit "Anonymous")
  /\ (blank (name_input ui) = false ->
      Session.user_name (session (login_page ui w)) = strip (name_input ui)
      /\ strip (name_input ui) <> []
      /\ lstrip (strip (name_input ui)) = strip (name_input ui)
      /\ rstrip (strip (name_input ui)) = strip (name_input ui)).
Proof.
  intros Hl Hp. unfold login_page, button. rewrite Hl, Hp, str_eqb_refl. simpl.
  rewrite truthy_strip. split; intros Hb; rewrite Hb; simpl; [done|].
  split; [done|]. split.
  - intros E%strip_nil_iff. congruence.
  - split; [apply strip_lstrip | apply strip_rstrip].
Qed.

Lemma login_name_default_witness :
  login_button (login_as (lit "   ")) = true
  /\ passcode_input (login_as (lit "   ")) = PASSCODE
  /\ blank (name_input (login_as (lit "   "))) = true
  /\ Session.user_name
       (session (login_page (login_as (lit "   "))
                            (mkWorld fresh_session empty_db [])))
     = lit "Anonymous".
Proof.
  split; [reflexivity|]. split; [reflexivity|]. split; [reflexivity|].
  exact (proj1 (login_name_default (login_as (lit "   "))
                  (mkWorld fresh_session empty_db []) eq_refl eq_refl) eq_refl).
Defined.

Example login_trims_name :
  Session.user_name
    (session (login_page (login_as (lit "  A. Partner "))
                         (mkWorld fresh_session empty_db [])))
  = lit "A. Partner".
Proof. vm_compute. reflexivity. Qed.

(** ** Navigation *)

Lemma WIZARD_STEPS_length : Z.of_nat (length WIZARD_STEPS) = 5.
Proof. reflexivity. Qed.

Lemma py_index_steps i :
  0 <= i <= 4 -> exists name, py_index WIZARD_STEPS i = Some name.
Proof.
  intros Hi.
  assert (i = 0 \/ i = 1 \/ i = 2 \/ i = 3 \/ i = 4) as Hc by lia.
  destruct Hc as [->|[->|[->|[->| ->]]]]; eexists; reflexivity.
Qed.

(** The navigation bar only writes [current_step] and the refresh flag. *)
Lemma wizard_navbar_step ui s s' :
  wizard_navbar ui s = Some s' ->
  let i := Session.current_step s in
  Session.logged_in s' = Session.logged_in s
  /\ Session.user_id s' = Session.user_id s
  /\ Session.user_name s' = Session.user_name s
  /\ (Session.current_step s' = i
      \/ (previous_button ui = true /\ i <> 0
          /\ Session.current_step s' = Z.max (i - 1) 0)
      \/ (next_button ui = true /\ i <> 4
          /\ Session.current_step s' = Z.min (i + 1) 4)).
Proof.
  unfold wizard_navbar. rewrite WIZARD_STEPS_length.
  destruct (py_index WIZARD_STEPS (Session.current_step s)); [|done].
  intros [= <-]. unfold button.
  destruct (previous_button ui), (next_button ui),
    (Z.eqb_spec (Session.current_step s) 0),
    (Z.eqb_spec (Session.current_step s) (5 - 1)); simpl;
    repeat (split; [done|]); auto; right; first [right; done | left; done].
Qed.

(** ** C5 *)

(** C5.  From a step index [i] with [0 <= i <= N-1], Previous succeeds and
    leaves [max(i-1, 0)], Next succeeds and leaves [min(i+1, N-1)]; at
    index 0 Previous changes nothing and at index [N-1] Next changes
    nothing. *)
Theorem navigation_clamped s :
  let i := Session.current_step s in
  let n := Z.of_nat (length WIZARD_STEPS) in
  0 <= i <= n - 1 ->
  (exists s', previous s = Some s'
              /\ Session.current_step s' = Z.max (i - 1) 0)
  /\ (exists s', next s = Some s'
                 /\ Session.current_step s' = Z.min (i + 1) (n - 1))
  /\ (i = 0 -> previous s = Some s)
  /\ (i = n - 1 -> next s = Some s).
Proof.
  intros i n Hi. subst i n. rewrite WIZARD_STEPS_length in *.
  destruct (py_index_steps _ Hi) as (name & Hname).
  unfold previous, next, wizard_navbar.
  rewrite Hname, WIZARD_STEPS_length. unfold button. simpl.
  destruct (Z.eqb_spec (Session.current_step s) 0) as [E0|N0],
           (Z.eqb_spec (Session.current_step s) (5 - 1)) as [E4|N4]; simpl;
    (split; [eexists; split; [reflexivity|simpl; lia]|]);
    (split; [eexists; split; [reflexivity|simpl; lia]|]);
    split; intros; (done || lia).
Qed.

Lemma navigation_clamped_witness :
  0 <= Session.current_step (at_step 4) <= Z.of_nat (length WIZARD_STEPS) - 1
  /\ next (at_step 4) = Some (at_step 4).
Proof.
  assert (H : 0 <= Session.current_step (at_step 4)
                <= Z.of_nat (length WIZARD_STEPS) - 1) by (simpl; lia).
  split; [exact H|].
  exact (proj2 (proj2 (proj2 (navigation_clamped (at_step 4) H))) eq_refl).
Defined.

Example next_from_2 :
  option_map Session.current_step (next (at_step 2)) = Some 3.
Proof. reflexivity. Qed.

Example previous_from_2 :
  option_map Session.current_step (previous (at_step 2)) = Some 1.
Proof. reflexivity. Qed.

(** ** The step index over whole runs *)

Lemma same_position_refl s : same_position s s.
Proof. by repeat split. Qed.

Lemma same_position_trans s1 s2 s3 :
  same_position s1 s2 -> same_position s2 s3 -> same_position s1 s3.
Proof. unfold same_position. intuition congruence. Qed.

Lemma same_position_toggle s : same_position s (toggle_refresh s).
Proof. by repeat split. Qed.

Create HintDb wizard.
#[local] Hint Resolve same_position_refl same_position_toggle : wizard.

Lemma say_session n w : session (say n w) = session w.
Proof. reflexivity. Qed.

Lemma display_entry_position ui w e :
  same_position (session w) (session (display_entry ui w e)).
Proof.
  unfold display_entry.
  destruct (str_eqb _ _); [|auto with wizard].
  destruct (button _ _); [|auto with wizard].
  destruct (delete_feedback _ _ _) as [d' []]; simpl; auto with wizard.
Qed.

Lemma display_feedback_entries_position ui entries w :
  same_position (session w) (session (display_feedback_entries ui entries w)).
Proof.
  unfold display_feedback_entries.
  destruct entries as [|e0 t]; [apply same_position_refl|].
  generalize (e0 :: t). clear e0 t. intros l. revert w.
  induction l as [|e l IH]; intros w; simpl; [auto with wizard|].
  eapply same_position_trans; [apply (display_entry_position ui w e)|apply IH].
Qed.

Lemma collect_feedback_position ui step section_label w :
  same_position (session w) (session (collect_feedback ui step section_label w)).
Proof.
  unfold collect_feedback.
  destruct (button _ _); [|auto with wizard].
  destruct (str_eqb _ _); simpl; auto with wizard.
Qed.

Lemma feedback_block_position `{OrderBy} ui step section_label w :
  same_position (session w) (session (feedback_block ui step section_label w)).
Proof.
  unfold feedback_block.
  eapply same_position_trans;
    [apply collect_feedback_position | apply display_feedback_entries_position].
Qed.

Lemma step_child_attributes_position `{OrderBy} ui w :
  same_position (session w) (session (step_child_attributes ui w)).
Proof.
  unfold step_child_attributes, child_attributes_step.
  destruct (choose_child _ _) as [c notice].
  eapply same_position_trans; [|apply feedback_block_position].
  destruct notice, (negb _); simpl; apply same_position_refl.
Qed.

Lemma render_current_step_position `{OrderBy} ui w w' :
  render_current_step ui w = Some w' -> same_position (session w) (session w').
Proof.
  unfold render_current_step.
  destruct (py_index _ _) as [name|]; [|done]. intros [= <-].
  repeat (destruct (str_eqb name _); [
    first [ apply feedback_block_position
          | apply step_child_attributes_position ] |]).
  apply same_position_refl.
Qed.

(** A run of [main] on a logged-in session whose index is valid never
    raises. *)
Lemma main_total `{OrderBy} ui s file :
  0 <= Session.current_step s <= 4 -> exists w, main ui (Some s) file = Some w.
Proof.
  intros Hi. unfold main. simpl.
  destruct (Session.logged_in s); simpl; [|eauto].
  destruct (wizard_navbar ui s) as [s'|] eqn:E.
  - pose proof (wizard_navbar_step ui s s' E) as (_ & _ & _ & Hs').
    unfold render_current_step. simpl.
    destruct (py_index_steps (Session.current_step s')) as (name & ->);
      [|eauto].
    simpl in Hs'. lia.
  - unfold wizard_navbar in E.
    destruct (py_index_steps _ Hi) as (name & Hn). by rewrite Hn in E.
Qed.

Lemma login_page_step ui w :
  session (login_page ui w) = session w
  \/ (login_button ui = true /\ passcode_input ui = PASSCODE
      /\ Session.logged_in (session (login_page ui w)) = true
      /\ Session.current_step (session (login_page ui w)) = 0).
Proof.
  unfold login_page, button.
  destruct (login_button ui); simpl; [|by left].
  destruct (str_eqb _ _) eqn:E; simpl; [|by left].
  apply str_eqb_eq in E. by right.
Qed.

(** What one run does to the index. *)
Lemma main_step `{OrderBy} ui s file w :
  main ui (Some s) file = Some w ->
  let i := Session.current_step s in
  (Session.logged_in s = false
   /\ (session w = s \/ Session.current_step (session w) = 0))
  \/ (Session.logged_in s = true
      /\ (Session.current_step (session w) = i
          \/ (previous_button ui = true /\ i <> 0
              /\ Session.current_step (session w) = Z.max (i - 1) 0)
          \/ (next_button ui = true /\ i <> 4
              /\ Session.current_step (session w) = Z.min (i + 1) 4))).
Proof.
  unfold main. simpl. destruct (Session.logged_in s) eqn:L; simpl.
  - destruct (wizard_navbar ui s) as [s'|] eqn:E; [|done].
    intros Hr. apply render_current_step_position in Hr as (_ & Hc & _).
    simpl in Hc. rewrite Hc.
    pose proof (wizard_navbar_step ui s s' E) as (_ & _ & _ & Hs').
    right. split; [done|exact Hs'].
  - intros [= <-]. left. split; [done|].
    destruct (login_page_step ui (mkWorld s (init_db file) [])) as [->|(_&_&_&->)];
      auto.
Qed.

Lemma main_keeps_index_valid `{OrderBy} ui s file w :
  0 <= Session.current_step s <= 4 ->
  main ui (Some s) file = Some w ->
  0 <= Session.current_step (session w) <= 4.
Proof.
  intros Hi Hm. apply main_step in Hm. simpl in Hm.
  destruct Hm as [(_ & [-> | ->]) | (_ & [-> | [(_ & _ & ->) | (_ & _ & ->)]])];
    lia.
Qed.

Lemma reachable_index_valid `{OrderBy} s :
  reachable s -> 0 <= Session.current_step s <= 4.
Proof.
  induction 1 as [ui file w Hm | s ui file w _ IH Hm].
  - apply (main_keeps_index_valid ui fresh_session file w); [simpl; lia|exact Hm].
  - by apply (main_keeps_index_valid ui s file w).
Qed.

(** ** C6 *)

(** C6.  There are five steps.  In every session a browser can reach the
    step index is between 0 and 4; a successful login sets it to 0; a run
    of the script on a logged-in session leaves it as it was unless
    Previous or Next is pressed, which give [max(i-1, 0)] and
    [min(i+1, 4)]; and the navigation bar takes a valid index to a valid
    index without raising. *)
Theorem step_index_always_valid `{OrderBy} :
  Z.of_nat (length WIZARD_STEPS) = 5
  /\ (forall s, reachable s -> 0 <= Session.current_step s <= 4)
  /\ (forall ui w,
        login_button ui = true -> passcode_input ui = PASSCODE ->
        Session.current_step (session (login_page ui w)) = 0)
  /\ (forall ui s file w,
        Session.logged_in s = true -> main ui (Some s) file = Some w ->
        let i := Session.current_step s in
        Session.current_step (session w) = i
        \/ (previous_button ui = true
            /\ Session.current_step (session w) = Z.max (i - 1) 0)
        \/ (next_button ui = true
            /\ Session.current_step (session w) = Z.min (i + 1) 4))
  /\ (forall ui s,
        0 <= Session.current_step s <= 4 ->
        exists s', wizard_navbar ui s = Some s'
                   /\ 0 <= Session.current_step s' <= 4).
Proof.
  split; [reflexivity|]. split; [apply @reachable_index_valid|]. split; [|split].
  - intros ui w Hl Hp. unfold login_page, button.
    by rewrite Hl, Hp, str_eqb_refl.
  - intros ui s file w Hlog Hm. apply main_step in Hm. simpl in *.
    destruct Hm as [(Hf & _) | (_ & [Hs | [(Hp & _ & Hs) | (Hn & _ & Hs)]])];
      [congruence | auto..].
  - intros ui s Hi.
    destruct (py_index_steps _ Hi) as (name & Hn).
    destruct (wizard_navbar ui s) as [s'|] eqn:E.
    + exists s'. split; [done|].
      pose proof (wizard_navbar_step ui s s' E) as (_ & _ & _ & Hs').
      simpl in Hs'. lia.
    + unfold wizard_navbar in E. by rewrite Hn in E.
Qed.

Lemma step_index_always_valid_witness :
  @reachable rowid_ties
    (Session.mk true 0 (lit "user-a") (lit "A") true)
  /\ 0 <= Session.current_step (Session.mk true 0 (lit "user-a") (lit "A") true)
     <= 4.
Proof.
  assert (R : @reachable rowid_ties
                (Session.mk true 0 (lit "user-a") (lit "A") true)).
  { exact (@reach_first rowid_ties (login_as (lit "A")) None
             (mkWorld (Session.mk true 0 (lit "user-a") (lit "A") true)
                      empty_db [])
             eq_refl). }
  split; [exact R|].
  exact (proj1 (proj2 (@step_index_always_valid rowid_ties)) _ R).
Defined.

(** ** Section keys of the child step *)

Lemma selectbox_In options choice :
  options <> [] -> In (selectbox options choice) options.
Proof.
  intros Hne. unfold selectbox.
  destruct (options !! choice) as [x|] eqn:E; simpl.
  - apply list_elem_of_In. by eapply list_elem_of_lookup_2.
  - destruct options; [done|]. by left.
Qed.

Lemma bar_free_cons c s : bar_free (c :: s) = true -> c <> bar /\ bar_free s = true.
Proof.
  simpl. intros [Hc Hs]%andb_prop. split; [|done].
  apply negb_true_iff, N.eqb_neq in Hc. done.
Qed.

(** A string is cut at its first bar in one way only. *)
Lemma first_bar_split x1 x2 r1 r2 :
  bar_free x1 = true -> bar_free x2 = true ->
  x1 ++ bar :: r1 = x2 ++ bar :: r2 -> x1 = x2 /\ r1 = r2.
Proof.
  revert x2. induction x1 as [|c x1 IH]; intros [|d x2] H1 H2 E; simpl in E.
  - by injection E.
  - apply bar_free_cons in H2 as [Hd _]. injection E as E _. congruence.
  - apply bar_free_cons in H1 as [Hc _]. injection E as E _. congruence.
  - apply bar_free_cons in H1 as [_ H1]. apply bar_free_cons in H2 as [_ H2].
    injection E as -> E. destruct (IH x2 H1 H2 E) as [-> ->]. done.
Qed.

Lemma bar_free_app a b : bar_free (a ++ b) = bar_free a && bar_free b.
Proof. apply forallb_app. Qed.

Lemma child_section_label_cut c a f :
  child_section_label c a f
  = (c ++ [32%N]) ++ bar :: ((32%N :: a) ++ [32%N]) ++ bar :: 32%N :: f.
Proof.
  unfold child_section_label.
  change (lit " | ") with ([32; 124; 32]%N).
  rewrite <- !app_assoc. reflexivity.
Qed.

(** The key determines its three parts as soon as the first two hold no
    bar. *)
Lemma child_section_label_inj c1 a1 f1 c2 a2 f2 :
  bar_free c1 = true -> bar_free a1 = true ->
  bar_free c2 = true -> bar_free a2 = true ->
  child_section_label c1 a1 f1 = child_section_label c2 a2 f2 ->
  c1 = c2 /\ a1 = a2 /\ f1 = f2.
Proof.
  intros Hc1 Ha1 Hc2 Ha2. rewrite !child_section_label_cut. intros E.
  apply first_bar_split in E as [Ec E];
    [|rewrite bar_free_app, ?Hc1, ?Hc2; reflexivity..].
  apply app_inj_tail in Ec as [-> _].
  apply first_bar_split in E as [Ea E];
    [|simpl; rewrite bar_free_app, ?Ha1, ?Ha2; reflexivity..].
  apply app_inj_tail in Ea as [Ea _].
  injection Ea as ->. injection E as ->. done.
Qed.

Lemma METHOD_CATEGORIES_bar_free c : In c METHOD_CATEGORIES -> bar_free c = true.
Proof.
  intros Hc.
  assert (H : forallb bar_free METHOD_CATEGORIES = true) by (vm_compute; reflexivity).
  rewrite forallb_forall in H. auto.
Qed.

Lemma PARENT_ATTRIBUTES_bar_free a : In a PARENT_ATTRIBUTES -> bar_free a = true.
Proof.
  intros Ha.
  assert (H : forallb bar_free PARENT_ATTRIBUTES = true) by (vm_compute; reflexivity).
  rewrite forallb_forall in H. auto.
Qed.

(** Every label of the shipped taxonomy, child names included, is free of
    the bar. *)
Lemma taxonomy_labels_bar_free :
  map_Forall (fun cat attrs =>
    bar_free cat = true
    /\ map_Forall (fun attr children =>
         bar_free attr = true
         /\ Forall (fun f => bar_free f.1.1 = true) children) attrs)
    CHILD_ATTRIBUTES_DICT.
Proof.
  apply map_Forall_to_list.
  assert (H : forallb (fun p =>
                bar_free p.1
                && forallb (fun q =>
                     bar_free q.1 && forallb (fun f => bar_free f.1.1) q.2)
                     (map_to_list p.2))
                (map_to_list CHILD_ATTRIBUTES_DICT) = true)
    by (vm_compute; reflexivity).
  rewrite forallb_forall in H. apply List.Forall_forall.
  intros [cat attrs] [Hc Ha]%H%andb_prop. simpl in *. split; [done|].
  apply map_Forall_to_list. rewrite forallb_forall in Ha.
  apply List.Forall_forall.
  intros [attr children] [Hb Hf]%Ha%andb_prop. simpl in *. split; [done|].
  rewrite forallb_forall in Hf. apply List.Forall_forall. auto.
Qed.

(** The child step files its feedback under the key of its selection. *)
Lemma child_attributes_step_key `{OrderBy} taxonomy ui w :
  exists w', child_attributes_step taxonomy ui w
             = feedback_block ui (lit "Child Attributes")
                 (selection_key (child_selection taxonomy ui)) w'
             /\ session w' = session w /\ db w' = db w.
Proof.
  unfold child_attributes_step, selection_key, child_selection. simpl.
  destruct (choose_child _ _) as [c notice]. simpl.
  eexists. split; [reflexivity|].
  destruct notice, (negb _); done.
Qed.

(** ** C3 *)

(** C3.  The key of the child step is a function of the selection: equal
    selections give equal keys.  It is the string
    [category ++ " | " ++ parent attribute ++ " | " ++ child or "General"],
    and two selections whose category is one of the five method categories
    and whose parent attribute is one of the five parent attributes get
    the same key only if all three components agree; so does any pair of
    selections the three select boxes can produce. *)
Theorem child_key_injective :
  (forall sel1 sel2, sel1 = sel2 -> selection_key sel1 = selection_key sel2)
  /\ (forall c a f, selection_key (c, a, f) = c ++ lit " | " ++ a ++ lit " | " ++ f)
  /\ (forall c1 a1 f1 c2 a2 f2,
        In c1 METHOD_CATEGORIES -> In a1 PARENT_ATTRIBUTES ->
        In c2 METHOD_CATEGORIES -> In a2 PARENT_ATTRIBUTES ->
        (c1, a1, f1) <> (c2, a2, f2) ->
        selection_key (c1, a1, f1) <> selection_key (c2, a2, f2))
  /\ (forall taxonomy ui1 ui2,
        selection_key (child_selection taxonomy ui1)
        = selection_key (child_selection taxonomy ui2)
        <-> child_selection taxonomy ui1 = child_selection taxonomy ui2).
Proof.
  assert (Hinj : forall c1 a1 f1 c2 a2 f2,
        In c1 METHOD_CATEGORIES -> In a1 PARENT_ATTRIBUTES ->
        In c2 METHOD_CATEGORIES -> In a2 PARENT_ATTRIBUTES ->
        selection_key (c1, a1, f1) = selection_key (c2, a2, f2) ->
        (c1, a1, f1) = (c2, a2, f2)).
  { intros c1 a1 f1 c2 a2 f2 Hc1 Ha1 Hc2 Ha2 E. unfold selection_key in E.
    simpl in E.
    apply child_section_label_inj in E as (-> & -> & ->);
      auto using METHOD_CATEGORIES_bar_free, PARENT_ATTRIBUTES_bar_free. }
  split; [by intros ? ? ->|]. split; [reflexivity|]. split.
  - intros c1 a1 f1 c2 a2 f2 Hc1 Ha1 Hc2 Ha2 Hne E. apply Hne. by apply Hinj.
  - intros taxonomy ui1 ui2. split; [|by intros ->].
    unfold child_selection. apply Hinj; by apply selectbox_In.
Qed.

Lemma child_key_injective_witness :
  In (lit "Simulations") METHOD_CATEGORIES /\ In (lit "Modeling") METHOD_CATEGORIES
  /\ In (lit "Maturity") PARENT_ATTRIBUTES
  /\ selection_key (lit "Simulations", lit "Maturity", lit "Validation Level")
     <> selection_key (lit "Modeling", lit "Maturity", lit "Validation Level").
Proof.
  assert (H1 : In (lit "Simulations") METHOD_CATEGORIES) by (vm_compute; tauto).
  assert (H2 : In (lit "Modeling") METHOD_CATEGORIES) by (vm_compute; tauto).
  assert (H3 : In (lit "Maturity") PARENT_ATTRIBUTES) by (vm_compute; tauto).
  repeat (split; [assumption|]).
  apply (proj1 (proj2 (proj2 child_key_injective)) _ _ _ _ _ _ H1 H3 H2 H3).
  vm_compute. discriminate.
Defined.

(** ** A pair without child attributes *)

Lemma child_attrs_of_nil taxonomy cat attr :
  child_attrs_of taxonomy cat attr = []
  <-> taxonomy !! cat = None
      \/ exists attrs, taxonomy !! cat = Some attrs
                       /\ (attrs !! attr = None \/ attrs !! attr = Some []).
Proof.
  unfold child_attrs_of. destruct (taxonomy !! cat) as [attrs|]; [|by intuition].
  destruct (attrs !! attr) as [l|] eqn:E; simpl; split.
  - intros ->. right. exists attrs. auto.
  - intros [?|(a' & [= <-] & [H|H])]; [done|rewrite E in H; done|].
    rewrite E in H. by injection H.
  - intros _. right. exists attrs. auto.
  - done.
Qed.

(** In the shipped taxonomy every pair of a method category and a parent
    attribute has child attributes. *)
Lemma shipped_pairs_have_children cat attr :
  In cat METHOD_CATEGORIES -> In attr PARENT_ATTRIBUTES ->
  child_attrs_of CHILD_ATTRIBUTES_DICT cat attr <> [].
Proof.
  intros Hc Ha.
  assert (H : forallb (fun c => forallb (fun a =>
                negb (Nat.eqb (length (child_attrs_of CHILD_ATTRIBUTES_DICT c a)) 0))
                PARENT_ATTRIBUTES) METHOD_CATEGORIES = true)
    by (vm_compute; reflexivity).
  rewrite forallb_forall in H. specialize (H cat Hc).
  rewrite forallb_forall in H. specialize (H attr Ha).
  intros E. rewrite E in H. discriminate.
Qed.

(** ** C8 *)

(** C8.  Over any taxonomy, when a category and a parent attribute have no
    child attributes (a key is absent or the list is empty), the child
    choice is "General" with empty description and scoring range, whatever
    the third select box holds, and the derived key is
    [category ++ " | " ++ parent attribute ++ " | General"].  The child
    step on that pair prints an information notice and goes on to the
    feedback form under that key: it returns a state, not an error. *)
Theorem no_children_general `{OrderBy} taxonomy cat attr :
  child_attrs_of taxonomy cat attr = [] ->
  (forall choice,
     choose_child (child_attrs_of taxonomy cat attr) choice
     = (mkChildChoice (lit "General") [] [], true)
     /\ child_key taxonomy cat attr choice
        = cat ++ lit " | " ++ attr ++ lit " | General")
  /\ (forall ui w,
        selectbox METHOD_CATEGORIES (child_cat ui) = cat ->
        selectbox PARENT_ATTRIBUTES (child_attr ui) = attr ->
        child_attributes_step taxonomy ui w
        = feedback_block ui (lit "Child Attributes")
            (cat ++ lit " | " ++ attr ++ lit " | General")
            (say (Info (lit "No predefined child attributes for this combination.")) w)).
Proof.
  intros Hnil. split.
  - intros choice. unfold child_key. rewrite Hnil. split; reflexivity.
  - intros ui w Hc Ha. unfold child_attributes_step.
    rewrite Hc, Ha, Hnil. reflexivity.
Qed.

Lemma no_children_general_witness :
  child_attrs_of sparse_taxonomy (lit "Testing") (lit "Utility") = []
  /\ child_key sparse_taxonomy (lit "Testing") (lit "Utility") 2
     = lit "Testing | Utility | General"
  /\ out (@child_attributes_step rowid_ties sparse_taxonomy pick_testing_utility
            (mkWorld session_a empty_db []))
     = [Info (lit "No predefined child attributes for this combination.");
        Info (lit "No feedback submitted yet for this section.")].
Proof.
  assert (Hnil : child_attrs_of sparse_taxonomy (lit "Testing") (lit "Utility") = [])
    by (vm_compute; reflexivity).
  pose proof (@no_children_general rowid_ties sparse_taxonomy (lit "Testing")
                (lit "Utility") Hnil) as [Hkey Hstep].
  split; [exact Hnil|]. split; [exact (proj2 (Hkey 2%nat))|].
  rewrite (Hstep pick_testing_utility (mkWorld session_a empty_db [])
             eq_refl eq_refl).
  vm_compute. reflexivity.
Defined.

(** With the shipped dictionary the same pair offers two child attributes
    besides "General". *)
Example shipped_testing_utility :
  List.map (fun f => f.1.1)
    (child_attrs_of CHILD_ATTRIBUTES_DICT (lit "Testing") (lit "Utility"))
  = [lit "Relevance to Performance Validation"; lit "Data Quality for Scale-up"].
Proof. vm_compute. reflexivity. Qed.

(** * Further properties of the store *)

(** ** Rowids are never handed out twice *)

Lemma delete_feedback_seq record_id user_id d :
  seq (delete_feedback record_id user_id d).1 = seq d.
Proof. reflexivity. Qed.

Lemma next_rowid_above d r :
  wf_db d -> In r (rows d) -> TableRow.id r < next_rowid d.
Proof.
  intros [_ Hb] Hr. rewrite List.Forall_forall in Hb.
  specialize (Hb r Hr). unfold next_rowid. lia.
Qed.

(** X1.  The table has AUTOINCREMENT: on a table that has its primary key, the
    row inserted after a delete gets a rowid above every rowid the table
    held before the delete, the deleted one included; and the new table
    has its primary key again. *)
Theorem rowid_never_reused now uid uname step section body record_id user_id d :
  wf_db d ->
  let d1 := (delete_feedback record_id user_id d).1 in
  let d2 := add_feedback now uid uname step section body d1 in
  wf_db d2
  /\ (exists r, rows d2 = rows d1 ++ [r]
                /\ Forall (fun old => TableRow.id old < TableRow.id r) (rows d)).
Proof.
  intros Hwf d1 d2. split.
  - apply wf_add_feedback, wf_delete_feedback, Hwf.
  - eexists. split; [reflexivity|]. simpl.
    apply List.Forall_forall. intros old Hold.
    destruct Hwf as [_ Hb]. rewrite List.Forall_forall in Hb.
    specialize (Hb old Hold). unfold next_rowid. simpl. lia.
Qed.

Lemma rowid_never_reused_witness :
  wf_db same_second
  /\ wf_db (add_feedback 101 (lit "user-a") (lit "A") intro_step intro_key
              (lit "third") (delete_feedback 2 (lit "user-b") same_second).1).
Proof.
  assert (Hwf : wf_db same_second)
    by (do 2 apply wf_add_feedback; apply wf_empty_db).
  split; [exact Hwf|].
  exact (proj1 (rowid_never_reused 101 (lit "user-a") (lit "A") intro_step
                  intro_key (lit "third") 2 (lit "user-b") same_second Hwf)).
Defined.

Example rowid_after_delete :
  List.map TableRow.id
    (rows (add_feedback 101 (lit "user-a") (lit "A") intro_step intro_key
             (lit "third") (delete_feedback 2 (lit "user-b") same_second).1))
  = [1; 3].
Proof. vm_compute. reflexivity. Qed.

(** ** A successful delete removes one row *)

Lemma filter_id_at_most_one rid l :
  StronglySorted Z.lt (List.map TableRow.id l) ->
  (length (List.filter (fun r => Z.eqb (TableRow.id r) rid) l) <= 1)%nat.
Proof.
  induction l as [|r l IH]; simpl; [lia|].
  intros [Hr Hl]%StronglySorted_cons.
  destruct (Z.eqb_spec (TableRow.id r) rid) as [E|N]; [|auto].
  simpl. rewrite filter_none; [simpl; lia|].
  intros x Hx. apply Z.eqb_neq.
  rewrite List.Forall_forall in Hr.
  assert (TableRow.id r < TableRow.id x) by (apply Hr, in_map_iff; eauto).
  lia.
Qed.

Lemma filter_split_length {A} (f : A -> bool) l :
  (length (List.filter f l) + length (List.filter (fun x => negb (f x)) l)
   = length l)%nat.
Proof.
  induction l as [|x l IH]; simpl; [done|].
  destruct (f x); simpl; lia.
Qed.

(** X2.  On a table that has its primary key, a delete that returns [True]
    removes exactly one row, the one with that id, and keeps all the others
    in their order; the AUTOINCREMENT counter stays. *)
Theorem delete_removes_one record_id user_id d :
  wf_db d -> (delete_feedback record_id user_id d).2 = true ->
  rows (delete_feedback record_id user_id d).1
  = List.filter (fun r => negb (TableRow.id r =? record_id)) (rows d)
  /\ S (length (rows (delete_feedback record_id user_id d).1)) = length (rows d)
  /\ seq (delete_feedback record_id user_id d).1 = seq d.
Proof.
  intros Hwf Hok.
  pose proof (delete_feedback_removes record_id user_id d Hwf Hok) as Hrows.
  split; [exact Hrows|]. split; [|reflexivity].
  rewrite Hrows.
  pose proof (filter_split_length (fun r => TableRow.id r =? record_id) (rows d)).
  pose proof (filter_id_at_most_one record_id (rows d) (proj1 Hwf)).
  apply delete_feedback_true_iff in Hok as (r & Hr & Hid & _).
  assert (In r (List.filter (fun r => TableRow.id r =? record_id) (rows d)))
    by (apply List.filter_In; split; [done|by apply Z.eqb_eq]).
  destruct (List.filter (fun r => TableRow.id r =? record_id) (rows d));
    [done|]. simpl in *. lia.
Qed.

Lemma delete_removes_one_witness :
  wf_db same_second
  /\ (delete_feedback 1 (lit "user-a") same_second).2 = true
  /\ S (length (rows (delete_feedback 1 (lit "user-a") same_second).1))
     = length (rows same_second).
Proof.
  assert (Hwf : wf_db same_second)
    by (do 2 apply wf_add_feedback; apply wf_empty_db).
  split; [exact Hwf|]. split; [reflexivity|].
  exact (proj1 (proj2 (delete_removes_one 1 (lit "user-a") same_second Hwf
                         eq_refl))).
Defined.

(** ** Writing, then reading *)

Lemma get_feedback_length `{OrderBy} step section d :
  length (get_feedback step section d)
  = length (List.filter (where_clause step section) (rows d)).
Proof.
  unfold get_feedback. rewrite length_map.
  symmetry. apply Permutation_length, order_by_perm.
Qed.

Lemma matches_false_iff step section r :
  matches step section r = false
  <-> (TableRow.step r, TableRow.section r) <> (step, section).
Proof.
  rewrite <- not_true_iff_false, matches_spec. split.
  - intros Hn [= E1 E2]. auto.
  - intros Hn [E1 E2]. apply Hn. congruence.
Qed.

(** X3.  A comment added under a step and a non-empty section comes back from
    [get_feedback] on that step and section, with the fresh rowid, the
    stripped body, the clock reading and the author's id; the list grows by
    one.  The lists of every other step and section are the same as
    before. *)
Theorem add_then_get `{OrderBy} now uid uname step section body d :
  section <> [] ->
  In (Entry.mk (next_rowid d) uid
               (if truthy uname then uname else lit "Anonymous")
               step section (strip body) now)
     (get_feedback step (Some section)
        (add_feedback now uid uname step section body d))
  /\ length (get_feedback step (Some section)
               (add_feedback now uid uname step section body d))
     = S (length (get_feedback step (Some section) d))
  /\ (forall step' section',
        section' <> [] -> (step, section) <> (step', section') ->
        get_feedback step' (Some section')
          (add_feedback now uid uname step section body d)
        = get_feedback step' (Some section') d).
Proof.
  intros Hne. split; [|split].
  - apply get_feedback_In.
    exists (TableRow.mk (next_rowid d) uid uname step section (strip body) now).
    split; [|split; [|reflexivity]].
    + simpl. apply in_or_app. right. by left.
    + rewrite where_clause_section by done. apply matches_spec. done.
  - rewrite !get_feedback_length, where_clause_section by done.
    simpl. rewrite List.filter_app, length_app. simpl.
    assert (Hm : matches step section
                   (TableRow.mk (next_rowid d) uid uname step section
                      (strip body) now) = true) by (by apply matches_spec).
    rewrite Hm. simpl. lia.
  - intros step' section' Hne' Hdiff. unfold get_feedback.
    rewrite where_clause_section by done. simpl.
    rewrite List.filter_app. simpl.
    assert (Hm : matches step' section'
                   (TableRow.mk (next_rowid d) uid uname step section
                      (strip body) now) = false)
      by (by apply matches_false_iff).
    rewrite Hm. by rewrite app_nil_r.
Qed.

Lemma add_then_get_witness :
  intro_key <> []
  /\ length (@get_feedback rowid_ties intro_step (Some intro_key)
               (add_feedback 101 (lit "user-a") (lit "A") intro_step intro_key
                  (lit " third ") same_second))
     = S (length (@get_feedback rowid_ties intro_step (Some intro_key) same_second)).
Proof.
  assert (Hne : intro_key <> []) by (vm_compute; discriminate).
  split; [exact Hne|].
  exact (proj1 (proj2 (@add_then_get rowid_ties 101 (lit "user-a") (lit "A")
                         intro_step intro_key (lit " third ") same_second Hne))).
Defined.

(** ** Deleting, then reading *)

Lemma entry_of_row_id r : Entry.id (entry_of_row r) = TableRow.id r.
Proof. reflexivity. Qed.

(** X4.  On a table that has its primary key, after a delete that returned
    [True] no list [get_feedback] returns holds an entry with that id any
    more, and every other entry is still returned, for every step and
    section filter. *)
Theorem delete_then_get `{OrderBy} record_id user_id step section d :
  wf_db d -> (delete_feedback record_id user_id d).2 = true ->
  forall e,
    In e (get_feedback step section (delete_feedback record_id user_id d).1)
    <-> In e (get_feedback step section d) /\ Entry.id e <> record_id.
Proof.
  intros Hwf Hok e.
  pose proof (delete_feedback_removes record_id user_id d Hwf Hok) as Hrows.
  rewrite !get_feedback_In, Hrows. split.
  - intros (r & [Hr Hid]%List.filter_In & Hw & ->).
    apply negb_true_iff, Z.eqb_neq in Hid. split; [eauto|done].
  - intros [(r & Hr & Hw & ->) Hid]. exists r. split; [|done].
    apply List.filter_In. split; [done|].
    by apply negb_true_iff, Z.eqb_neq.
Qed.

Lemma delete_then_get_witness :
  wf_db same_second
  /\ (delete_feedback 1 (lit "user-a") same_second).2 = true
  /\ ~ In (entry_of_row (TableRow.mk 1 (lit "user-a") (lit "A") intro_step
                           intro_key (lit "first") 100))
          (@get_feedback rowid_ties intro_step (Some intro_key)
             (delete_feedback 1 (lit "user-a") same_second).1).
Proof.
  assert (Hwf : wf_db same_second)
    by (do 2 apply wf_add_feedback; apply wf_empty_db).
  split; [exact Hwf|]. split; [reflexivity|].
  intros Hin.
  apply (@delete_then_get rowid_ties 1 (lit "user-a") intro_step
           (Some intro_key) same_second Hwf eq_refl) in Hin as [_ Hid].
  by apply Hid.
Defined.

(** ** Names at read time *)

(** X5.  No entry [get_feedback] returns has an empty [user_name]: a row stored
    with an empty name is shown as "Anonymous", a row with a name shows
    that name; every other key is the stored column. *)
Theorem get_feedback_names `{OrderBy} step section d e :
  In e (get_feedback step section d) ->
  Entry.user_name e <> []
  /\ exists r, In r (rows d)
       /\ Entry.id e = TableRow.id r /\ Entry.user_id e = TableRow.user_id r
       /\ Entry.step e = TableRow.step r /\ Entry.section e = TableRow.section r
       /\ Entry.feedback e = TableRow.feedback r
       /\ Entry.created_at e = TableRow.created_at r
       /\ (TableRow.user_name r = [] -> Entry.user_name e = lit "Anonymous")
       /\ (TableRow.user_name r <> [] -> Entry.user_name e = TableRow.user_name r).
Proof.
  intros (r & Hr & _ & ->)%get_feedback_In. split.
  - simpl. destruct (TableRow.user_name r); simpl; discriminate.
  - exists r. repeat (split; [done|]). simpl.
    destruct (TableRow.user_name r); simpl; split; done.
Qed.

Lemma get_feedback_names_witness :
  In (Entry.mk 1 (lit "user-a") (lit "Anonymous") intro_step intro_key
               (lit "first") 100)
     (@get_feedback rowid_ties intro_step (Some intro_key) nameless)
  /\ Entry.user_name
       (Entry.mk 1 (lit "user-a") (lit "Anonymous") intro_step intro_key
                 (lit "first") 100) <> [].
Proof.
  assert (Hin : In (Entry.mk 1 (lit "user-a") (lit "Anonymous") intro_step
                      intro_key (lit "first") 100)
                   (@get_feedback rowid_ties intro_step (Some intro_key) nameless))
    by (vm_compute; tauto).
  split; [exact Hin|].
  exact (proj1 (@get_feedback_names rowid_ties intro_step (Some intro_key)
                  nameless _ Hin)).
Defined.

(** ** What stripping keeps *)

Lemma rstrip_split s : exists q, s = rstrip s ++ q /\ blank q = true.
Proof.
  unfold rstrip. destruct (lstrip_split (rev s)) as (p & Hp & Hb).
  exists (rev p). split; [|by rewrite blank_rev].
  rewrite <- rev_app_distr, <- Hp. by rewrite rev_involutive.
Qed.

Lemma strip_split s :
  exists p q, s = p ++ strip s ++ q /\ blank p = true /\ blank q = true.
Proof.
  destruct (lstrip_split s) as (p & Hp & Hbp).
  destruct (rstrip_split (lstrip s)) as (q & Hq & Hbq).
  exists p, q. unfold strip. rewrite <- Hq. done.
Qed.

Lemma rstrip_last s t c : rstrip s = t ++ [c] -> isspace c = false.
Proof.
  unfold rstrip. intros E.
  apply (f_equal (@rev N)) in E. rewrite rev_involutive, rev_app_distr in E.
  simpl in E. by apply lstrip_head in E.
Qed.

(** X6.  The body [add_feedback] stores is the text it was given with a run of
    whitespace taken off each end and nothing else: the text in between,
    inner whitespace included, is kept as typed, and the stored body
    neither starts nor ends with a whitespace character. *)
Theorem add_feedback_keeps_inner_text now uid uname step section body d :
  exists r p q,
    rows (add_feedback now uid uname step section body d) = rows d ++ [r]
    /\ body = p ++ TableRow.feedback r ++ q
    /\ blank p = true /\ blank q = true
    /\ (forall c t, TableRow.feedback r = c :: t -> isspace c = false)
    /\ (forall t c, TableRow.feedback r = t ++ [c] -> isspace c = false).
Proof.
  destruct (strip_split body) as (p & q & Hs & Hp & Hq).
  eexists; exists p, q. split; [reflexivity|]. simpl.
  split; [exact Hs|]. split; [exact Hp|]. split; [exact Hq|]. split.
  - intros c t E. rewrite <- strip_lstrip in E. by apply lstrip_head in E.
  - intros t c E. rewrite <- strip_rstrip in E. by apply rstrip_last in E.
Qed.

Example strip_keeps_inner_spaces :
  strip (lit "  two  words ") = lit "two  words".
Proof. vm_compute. reflexivity. Qed.

(** ** The list of entries and its Delete buttons *)

Lemma display_entry_user_id ui w e :
  Session.user_id (session (display_entry ui w e)) = Session.user_id (session w).
Proof. apply display_entry_position. Qed.

(** One entry: the rows of the table afterwards are those that are not the
    session user's row with the entry's id. *)
Lemma display_entry_rows ui w e :
  exists f : TableRow.t -> bool,
    rows (db (display_entry ui w e)) = List.filter f (rows (db w))
    /\ seq (db (display_entry ui w e)) = seq (db w)
    /\ (forall r, str_eqb (TableRow.user_id r) (Session.user_id (session w)) = false ->
                  f r = true)
    /\ (forall r, delete_button ui (TableRow.id r) = false -> f r = true).
Proof.
  unfold display_entry.
  destruct (str_eqb (Entry.user_id e) _) eqn:Hown;
    [|exists (fun _ => true); split; [by rewrite filter_all|done]].
  unfold button. rewrite andb_true_r.
  destruct (delete_button ui (Entry.id e)) eqn:Hb;
    [|exists (fun _ => true); split; [by rewrite filter_all|done]].
  exists (fun r => negb (delete_where (Entry.id e) (Session.user_id (session w)) r)).
  destruct (delete_feedback _ _ _) as [d' ok] eqn:E.
  unfold delete_feedback in E. injection E as <- _.
  split; [by destruct ok|]. split; [by destruct ok|]. split.
  - intros r Hr. unfold delete_where. rewrite Hr. by rewrite andb_false_r.
  - intros r Hr. unfold delete_where.
    destruct (Z.eqb_spec (TableRow.id r) (Entry.id e)) as [Eid|]; [|done].
    rewrite Eid in Hr. congruence.
Qed.

Lemma filter_filter {A} (f g : A -> bool) l :
  List.filter f (List.filter g l) = List.filter (fun x => g x && f x) l.
Proof.
  induction l as [|x l IH]; simpl; [done|].
  destruct (g x); simpl; [destruct (f x); by rewrite IH|done].
Qed.

Lemma display_entries_rows ui entries w :
  exists f : TableRow.t -> bool,
    rows (db (fold_left (display_entry ui) entries w)) = List.filter f (rows (db w))
    /\ seq (db (fold_left (display_entry ui) entries w)) = seq (db w)
    /\ (forall r, str_eqb (TableRow.user_id r) (Session.user_id (session w)) = false ->
                  f r = true)
    /\ (forall r, delete_button ui (TableRow.id r) = false -> f r = true).
Proof.
  revert w. induction entries as [|e l IH]; intros w; simpl.
  - exists (fun _ => true). split; [by rewrite filter_all|done].
  - destruct (display_entry_rows ui w e) as (g & Hg & Hsg & Hg1 & Hg2).
    destruct (IH (display_entry ui w e)) as (f & Hf & Hsf & Hf1 & Hf2).
    exists (fun r => g r && f r).
    rewrite Hf, Hg, filter_filter, Hsf, Hsg.
    split; [done|]. split; [done|]. split.
    + intros r Hr. rewrite Hg1 by done.
      rewrite display_entry_user_id in Hf1. by rewrite Hf1.
    + intros r Hr. by rewrite Hg2, Hf2.
Qed.

Lemma display_feedback_entries_rows ui entries w :
  exists f : TableRow.t -> bool,
    rows (db (display_feedback_entries ui entries w)) = List.filter f (rows (db w))
    /\ seq (db (display_feedback_entries ui entries w)) = seq (db w)
    /\ (forall r, str_eqb (TableRow.user_id r) (Session.user_id (session w)) = false ->
                  f r = true)
    /\ (forall r, delete_button ui (TableRow.id r) = false -> f r = true).
Proof.
  unfold display_feedback_entries. destruct entries as [|e0 t].
  - exists (fun _ => true). split; [simpl; by rewrite filter_all|done].
  - apply display_entries_rows.
Qed.

Lemma filter_filter_absorb {A} (f g : A -> bool) l :
  (forall x, g x = true -> f x = true) ->
  List.filter g (List.filter f l) = List.filter g l.
Proof.
  intros Himp. rewrite filter_filter. apply List.filter_ext.
  intros x. destruct (g x) eqn:Hg; [by rewrite (Himp x Hg)|by rewrite andb_false_r].
Qed.

(** X7.  Whatever entries are listed and whatever Delete buttons are pressed,
    [display_feedback_entries] only removes rows: what is left is a
    selection of the rows that were there, in their order, with every row
    of another user and every row whose button was not pressed still in
    it.  With no button pressed the table is the same. *)
Theorem display_deletes_own_rows_only ui entries w :
  let w' := display_feedback_entries ui entries w in
  let other r := negb (str_eqb (TableRow.user_id r) (Session.user_id (session w))) in
  (exists f, rows (db w') = List.filter f (rows (db w)))
  /\ List.filter other (rows (db w')) = List.filter other (rows (db w))
  /\ (forall r, In r (rows (db w)) -> delete_button ui (TableRow.id r) = false ->
                In r (rows (db w')))
  /\ ((forall i, delete_button ui i = false) -> db w' = db w).
Proof.
  intros w' other.
  destruct (display_feedback_entries_rows ui entries w) as (f & Hf & Hs & Hf1 & Hf2).
  fold w' in Hf, Hs. split; [eauto|]. split; [|split].
  - rewrite Hf. apply filter_filter_absorb.
    intros r Hr. apply Hf1. by apply negb_true_iff.
  - intros r Hr Hb. rewrite Hf. apply List.filter_In. auto.
  - intros Hno. destruct (db w') as [l s], (db w) as [l0 s0]. simpl in *.
    subst. f_equal. apply filter_all. auto.
Qed.

Lemma display_deletes_own_rows_only_witness :
  List.map TableRow.id
    (rows (db (display_feedback_entries press_all_deletes
                 (@get_feedback rowid_ties intro_step (Some intro_key) same_second)
                 (mkWorld session_b same_second []))))
  = [1]
  /\ List.filter
       (fun r => negb (str_eqb (TableRow.user_id r) (lit "user-b")))
       (rows (db (display_feedback_entries press_all_deletes
                    (@get_feedback rowid_ties intro_step (Some intro_key) same_second)
                    (mkWorld session_b same_second []))))
     = List.filter
         (fun r => negb (str_eqb (TableRow.user_id r) (lit "user-b")))
         (rows same_second).
Proof.
  split; [vm_compute; reflexivity|].
  exact (proj1 (proj2 (display_deletes_own_rows_only press_all_deletes
                         (@get_feedback rowid_ties intro_step (Some intro_key)
                            same_second)
                         (mkWorld session_b same_second [])))).
Defined.

(** ** Before login *)

(** X8.  A run of the script on a session that is not logged in never raises
    and never writes the table, whatever widgets are pressed.  The session
    becomes logged in exactly when Login is pressed with the passcode
    "DECODE"; it then holds the fresh uuid and step 0.  With a wrong
    passcode the session stays as it was and an error is shown; without
    the button nothing changes. *)
Theorem login_gate `{OrderBy} ui s file :
  Session.logged_in s = false ->
  exists w,
    main ui (Some s) file = Some w
    /\ db w = init_db file
    /\ (Session.logged_in (session w) = true
        <-> login_button ui = true /\ passcode_input ui = PASSCODE)
    /\ (Session.logged_in (session w) = true ->
        Session.user_id (session w) = uuid4 ui
        /\ Session.current_step (session w) = 0)
    /\ (Session.logged_in (session w) = false -> session w = s)
    /\ (login_button ui = true -> passcode_input ui <> PASSCODE ->
        out w = [Error (lit "Incorrect passcode. Please try again.")]).
Proof.
  intros Hout. unfold main. simpl. rewrite Hout. simpl.
  eexists. split; [reflexivity|].
  unfold login_page, button. rewrite andb_true_r.
  destruct (login_button ui); simpl.
  - destruct (str_eqb (passcode_input ui) PASSCODE) eqn:E; simpl.
    + apply str_eqb_eq in E. repeat split; done.
    + assert (passcode_input ui <> PASSCODE)
        by (intros E'; rewrite E', str_eqb_refl in E; discriminate).
      rewrite Hout. repeat split; try done. intros [_ ?]. done.
  - rewrite Hout. repeat split; try done. intros [? _]. done.
Qed.

Lemma login_gate_witness :
  Session.logged_in fresh_session = false
  /\ exists w,
       @main rowid_ties wrong_passcode (Some fresh_session) (Some same_second)
       = Some w
       /\ db w = same_second.
Proof.
  split; [reflexivity|].
  destruct (@login_gate rowid_ties wrong_passcode fresh_session (Some same_second)
              eq_refl) as (w & Hmain & Hdb & _).
  exists w. split; [exact Hmain | exact Hdb].
Defined.

Example wrong_passcode_run :
  @main rowid_ties wrong_passcode (Some fresh_session) (Some same_second)
  = Some (mkWorld fresh_session same_second
            [Error (lit "Incorrect passcode. Please try again.")]).
Proof. vm_compute. reflexivity. Qed.

(** ** After login *)

(** X9.  Once a session is logged in, no run of the script logs it out or
    changes its user id or its display name. *)
Theorem identity_kept `{OrderBy} ui s file w :
  Session.logged_in s = true ->
  main ui (Some s) file = Some w ->
  Session.logged_in (session w) = true
  /\ Session.user_id (session w) = Session.user_id s
  /\ Session.user_name (session w) = Session.user_name s.
Proof.
  intros Hin. unfold main. simpl. rewrite Hin. simpl.
  destruct (wizard_navbar ui s) as [s'|] eqn:E; [|done].
  intros (Hl & _ & Hu & Hn)%render_current_step_position. simpl in *.
  pose proof (wizard_navbar_step ui s s' E) as (Hl' & Hu' & Hn' & _).
  rewrite Hl, Hu, Hn, Hl', Hu', Hn'. done.
Qed.

Lemma identity_kept_witness :
  Session.logged_in session_a = true
  /\ option_map (fun w => Session.user_id (session w))
       (@main rowid_ties (typed (lit "more")) (Some session_a) (Some same_second))
     = Some (lit "user-a").
Proof.
  split; [reflexivity|].
  destruct (@main rowid_ties (typed (lit "more")) (Some session_a)
              (Some same_second)) as [w|] eqn:E.
  - simpl. f_equal.
    exact (proj1 (proj2 (@identity_kept rowid_ties (typed (lit "more")) session_a
                           (Some same_second) w eq_refl E))).
  - vm_compute in E. discriminate.
Defined.

(** ** Next and Previous undo each other *)

Lemma toggle_refresh_twice s i j :
  toggle_refresh (set_current_step i (toggle_refresh (set_current_step j s)))
  = set_current_step i s.
Proof. destruct s. unfold toggle_refresh, set_current_step. simpl. by rewrite negb_involutive. Qed.

Lemma set_current_step_same s : set_current_step (Session.current_step s) s = s.
Proof. by destruct s. Qed.

(** X10.  Away from the last step, Next followed by Previous gives back the very
    session state, refresh flag included; away from the first step, so
    does Previous followed by Next. *)
Theorem next_previous_inverse s :
  let i := Session.current_step s in
  (0 <= i <= 3 -> exists s1, next s = Some s1 /\ previous s1 = Some s)
  /\ (1 <= i <= 4 -> exists s1, previous s = Some s1 /\ next s1 = Some s).
Proof.
  simpl. split; intros Hi.
  - destruct (py_index_steps (Session.current_step s)) as (n1 & Hn1); [lia|].
    destruct (py_index_steps (Session.current_step s + 1)) as (n2 & Hn2); [lia|].
    unfold next, previous, wizard_navbar. rewrite Hn1, WIZARD_STEPS_length.
    unfold button. simpl.
    destruct (Z.eqb_spec (Session.current_step s) (5 - 1)); [lia|]. simpl.
    eexists. split; [reflexivity|]. simpl.
    replace (Z.min (Session.current_step s + 1) (5 - 1))
      with (Session.current_step s + 1) by lia.
    rewrite Hn2.
    destruct (Z.eqb_spec (Session.current_step s + 1) 0); [lia|]. simpl.
    rewrite toggle_refresh_twice.
    replace (Z.max (Session.current_step s + 1 - 1) 0)
      with (Session.current_step s) by lia.
    by rewrite set_current_step_same.
  - destruct (py_index_steps (Session.current_step s)) as (n1 & Hn1); [lia|].
    destruct (py_index_steps (Session.current_step s - 1)) as (n2 & Hn2); [lia|].
    unfold next, previous, wizard_navbar. rewrite Hn1, WIZARD_STEPS_length.
    unfold button. simpl.
    destruct (Z.eqb_spec (Session.current_step s) 0); [lia|]. simpl.
    eexists. split; [reflexivity|]. simpl.
    replace (Z.max (Session.current_step s - 1) 0)
      with (Session.current_step s - 1) by lia.
    rewrite Hn2.
    destruct (Z.eqb_spec (Session.current_step s - 1) (5 - 1)); [lia|]. simpl.
    rewrite toggle_refresh_twice.
    replace (Z.min (Session.current_step s - 1 + 1) (5 - 1))
      with (Session.current_step s) by lia.
    by rewrite set_current_step_same.
Qed.

Lemma next_previous_inverse_witness :
  0 <= Session.current_step (at_step 2) <= 3
  /\ exists s1, next (at_step 2) = Some s1 /\ previous s1 = Some (at_step 2).
Proof.
  assert (H : 0 <= Session.current_step (at_step 2) <= 3) by (simpl; lia).
  split; [exact H|].
  exact (proj1 (next_previous_inverse (at_step 2)) H).
Defined.

(** ** When the step index is out of range *)

Lemma py_index_steps_None i :
  py_index WIZARD_STEPS i = None <-> i < -5 \/ 4 < i.
Proof.
  unfold py_index. rewrite WIZARD_STEPS_length.
  destruct (Z.leb_spec 0 i).
  - rewrite lookup_ge_None. change (length WIZARD_STEPS) with 5%nat. lia.
  - destruct (Z.leb_spec (- (5)) i).
    + rewrite lookup_ge_None. change (length WIZARD_STEPS) with 5%nat. lia.
    + split; [lia|done].
Qed.

(** X11.  [WIZARD_STEPS[current_step]] raises exactly for an index below -5 or
    above 4, and so does a run of the script on a logged-in session: the
    indices -5 to -1 count from the end of the list and do not raise. *)
Theorem index_error_range `{OrderBy} ui s file :
  Session.logged_in s = true ->
  (wizard_navbar ui s = None
   <-> Session.current_step s < -5 \/ 4 < Session.current_step s)
  /\ (Session.current_step s < -5 \/ 4 < Session.current_step s ->
      main ui (Some s) file = None).
Proof.
  intros Hin.
  assert (Hnav : wizard_navbar ui s = None
                 <-> Session.current_step s < -5 \/ 4 < Session.current_step s).
  { rewrite <- py_index_steps_None. unfold wizard_navbar.
    destruct (py_index WIZARD_STEPS (Session.current_step s)); split; done. }
  split; [exact Hnav|].
  intros Hi%Hnav. unfold main. simpl. rewrite Hin. simpl. by rewrite Hi.
Qed.

Lemma index_error_range_witness :
  Session.logged_in (at_step 5) = true
  /\ @main rowid_ties (press false false) (Some (at_step 5)) (Some same_second)
     = None.
Proof.
  split; [reflexivity|].
  apply (proj2 (@index_error_range rowid_ties (press false false) (at_step 5)
                  (Some same_second) eq_refl)).
  right. simpl. lia.
Defined.

Example negative_index_does_not_raise :
  option_map Session.current_step (wizard_navbar (press false false) (at_step (-1)))
  = Some (-1).
Proof. reflexivity. Qed.

(** ** Which step a run renders *)

Ltac eval_str_eqb :=
  repeat match goal with
         | |- context [str_eqb ?a ?b] =>
             let v := eval vm_compute in (str_eqb a b) in
             change (str_eqb a b) with v
         end.

Lemma render_at ui `{OrderBy} w i name :
  Session.current_step (session w) = i ->
  py_index WIZARD_STEPS i = Some name ->
  render_current_step ui w
  = Some (if str_eqb name (lit "Introduction") then step_introduction ui w
          else if str_eqb name (lit "Method Categories") then step_method_categories ui w
          else if str_eqb name (lit "Parent Attributes") then step_parent_attributes ui w
          else if str_eqb name (lit "Child Attributes") then step_child_attributes ui w
          else if str_eqb name (lit "Final Comments") then step_final_comments ui w
          else w).
Proof. intros Hi Hn. unfold render_current_step. by rewrite Hi, Hn. Qed.

(** X12.  Every valid index renders its own step: the names tested by
    [render_current_step] are the entries of [WIZARD_STEPS], in order, so
    no index falls through the chain and renders nothing. *)
Theorem render_dispatch `{OrderBy} ui w :
  let i := Session.current_step (session w) in
  0 <= i <= 4 ->
  render_current_step ui w
  = Some (if i =? 0 then step_introduction ui w
          else if i =? 1 then step_method_categories ui w
          else if i =? 2 then step_parent_attributes ui w
          else if i =? 3 then step_child_attributes ui w
          else step_final_comments ui w).
Proof.
  intros i Hi. subst i.
  assert (Session.current_step (session w) = 0 \/ Session.current_step (session w) = 1
          \/ Session.current_step (session w) = 2 \/ Session.current_step (session w) = 3
          \/ Session.current_step (session w) = 4) as Hc by lia.
  destruct Hc as [E|[E|[E|[E|E]]]]; rewrite E;
    erewrite render_at by (first [exact E | reflexivity]);
    eval_str_eqb; reflexivity.
Qed.

Lemma render_dispatch_witness :
  0 <= Session.current_step (session (mkWorld (at_step 4) same_second [])) <= 4
  /\ @render_current_step rowid_ties (press false false)
       (mkWorld (at_step 4) same_second [])
     = Some (@step_final_comments rowid_ties (press false false)
               (mkWorld (at_step 4) same_second [])).
Proof.
  assert (Hi : 0 <= Session.current_step
                      (session (mkWorld (at_step 4) same_second [])) <= 4)
    by (simpl; lia).
  split; [exact Hi|].
  exact (@render_dispatch rowid_ties (press false false)
           (mkWorld (at_step 4) same_second []) Hi).
Defined.

(** ** The shape every step shares *)

Lemma options_nonempty options choice :
  options <> [] -> Forall (fun o => o <> []) options ->
  selectbox options choice <> [].
Proof.
  intros Hne Hall. rewrite List.Forall_forall in Hall.
  apply Hall. by apply selectbox_In.
Qed.

Lemma child_section_label_nonempty c a f : child_section_label c a f <> [].
Proof. rewrite child_section_label_cut. by destruct c. Qed.

Lemma step_introduction_block `{OrderBy} ui w :
  block_of ui (lit "Introduction") w (step_introduction ui w).
Proof. exists (lit "GeneralIntro"), w. by repeat split. Qed.

Lemma step_method_categories_block `{OrderBy} ui w :
  block_of ui (lit "Method Categories") w (step_method_categories ui w).
Proof.
  unfold step_method_categories. eexists _, w.
  split; [|by repeat split].
  destruct (negb _); [|done].
  apply options_nonempty; [done|].
  repeat constructor; done.
Qed.

Lemma step_parent_attributes_block `{OrderBy} ui w :
  block_of ui (lit "Parent Attributes") w (step_parent_attributes ui w).
Proof.
  unfold step_parent_attributes. eexists _, w.
  split; [|by repeat split].
  destruct (negb _); [|done].
  apply options_nonempty; [done|].
  repeat constructor; done.
Qed.

Lemma step_child_attributes_block `{OrderBy} ui w :
  block_of ui (lit "Child Attributes") w (step_child_attributes ui w).
Proof.
  unfold step_child_attributes.
  destruct (child_attributes_step_key CHILD_ATTRIBUTES_DICT ui w)
    as (w0 & -> & Hs & Hd).
  exists (selection_key (child_selection CHILD_ATTRIBUTES_DICT ui)), w0.
  split; [apply child_section_label_nonempty|by repeat split].
Qed.

Lemma step_final_comments_block `{OrderBy} ui w :
  block_of ui (lit "Final Comments") w (step_final_comments ui w).
Proof. exists (lit "OverallFinal"), w. by repeat split. Qed.

Lemma py_index_In {A} (l : list A) i x : py_index l i = Some x -> In x l.
Proof.
  unfold py_index. intros Hx. apply list_elem_of_In.
  destruct (0 <=? i); [by eapply list_elem_of_lookup_2|].
  destruct (_ <=? i); [by eapply list_elem_of_lookup_2|done].
Qed.

Lemma render_current_step_block `{OrderBy} ui w w' :
  render_current_step ui w = Some w' ->
  exists name,
    py_index WIZARD_STEPS (Session.current_step (session w)) = Some name
    /\ block_of ui name w w'.
Proof.
  destruct (py_index WIZARD_STEPS (Session.current_step (session w)))
    as [name|] eqn:Hn; [|unfold render_current_step; by rewrite Hn].
  rewrite (render_at ui w _ name eq_refl Hn). intros [= <-].
  exists name. split; [done|].
  apply py_index_In in Hn. simpl in Hn.
  destruct Hn as [<-|[<-|[<-|[<-|[<-|[]]]]]]; eval_str_eqb.
  - apply step_introduction_block.
  - apply step_method_categories_block.
  - apply step_parent_attributes_block.
  - apply step_child_attributes_block.
  - apply step_final_comments_block.
Qed.

(** What the form does to the table. *)
Lemma collect_feedback_db ui name key w :
  (db (collect_feedback ui name key w) = db w
   /\ (submit_button ui = false \/ blank (feedback_text ui) = true))
  \/ (submit_button ui = true /\ blank (feedback_text ui) = false
      /\ db (collect_feedback ui name key w)
         = add_feedback (clock ui) (Session.user_id (session w))
             (Session.user_name (session w)) name key (feedback_text ui) (db w)).
Proof.
  unfold collect_feedback, button. rewrite andb_true_r.
  destruct (submit_button ui); [|left; auto].
  destruct (str_eqb (strip (feedback_text ui)) []) eqn:E.
  - left. split; [done|]. right. by apply strip_nil_iff, str_eqb_eq.
  - right. split; [done|]. split; [|done].
    destruct (blank (feedback_text ui)) eqn:Hb; [|done].
    apply strip_nil_iff in Hb. rewrite Hb, str_eqb_refl in E. discriminate.
Qed.

Lemma feedback_block_rows `{OrderBy} ui name key w :
  exists f : TableRow.t -> bool,
    rows (db (feedback_block ui name key w))
    = List.filter f (rows (db (collect_feedback ui name key w)))
    /\ seq (db (feedback_block ui name key w))
       = seq (db (collect_feedback ui name key w))
    /\ (forall r, delete_button ui (TableRow.id r) = false -> f r = true).
Proof.
  unfold feedback_block.
  destruct (display_feedback_entries_rows ui
              (get_feedback name (Some key) (db (collect_feedback ui name key w)))
              (collect_feedback ui name key w)) as (f & Hf & Hs & _ & Hf2).
  eauto.
Qed.

Lemma wf_filter f d d' :
  wf_db d -> rows d' = List.filter f (rows d) -> seq d' = seq d -> wf_db d'.
Proof.
  intros [Hs Hb] Hr Hq. split; rewrite Hr.
  - by apply StronglySorted_map_filter.
  - rewrite Hq. rewrite List.Forall_forall in Hb |- *.
    intros r [Hin _]%List.filter_In. auto.
Qed.

Lemma Forall_filter_keep {A} (P : A -> Prop) (f : A -> bool) l :
  Forall P l -> Forall P (List.filter f l).
Proof.
  rewrite !List.Forall_forall. intros Hall x [Hx _]%List.filter_In. auto.
Qed.

(** ** What a whole run does to the table *)

Lemma main_db_shape `{OrderBy} ui ss file w :
  main ui ss file = Some w ->
  let s := default fresh_session ss in
  (Session.logged_in s = false /\ db w = init_db file)
  \/ (Session.logged_in s = true
      /\ exists s' name key w0,
           wizard_navbar ui s = Some s'
           /\ py_index WIZARD_STEPS (Session.current_step s') = Some name
           /\ key <> [] /\ session w0 = s' /\ db w0 = init_db file
           /\ db w = db (feedback_block ui name key w0)).
Proof.
  unfold main. simpl.
  destruct (Session.logged_in (default fresh_session ss)) eqn:L; simpl.
  - destruct (wizard_navbar ui _) as [s'|] eqn:E; [|done].
    intros (name & Hn & key & w0 & Hk & Hs & Hd & _ & Hdb)%render_current_step_block.
    right. split; [done|]. exists s', name, key, w0. simpl in *. done.
  - intros [= <-]. left. split; [done|].
    unfold login_page. destruct (button _ _); [|done].
    by destruct (str_eqb _ _).
Qed.

(** X13.  A run of the script keeps the table sound: started on a table that has
    its primary key and no empty body, it ends on such a table, and the
    AUTOINCREMENT counter never goes down. *)
Theorem main_keeps_table_sound `{OrderBy} ui ss file w :
  wf_db (init_db file) ->
  Forall (fun r => TableRow.feedback r <> []) (rows (init_db file)) ->
  main ui ss file = Some w ->
  wf_db (db w)
  /\ Forall (fun r => TableRow.feedback r <> []) (rows (db w))
  /\ seq (init_db file) <= seq (db w).
Proof.
  intros Hwf Hbody Hm. apply main_db_shape in Hm. simpl in Hm.
  destruct Hm as [(_ & ->) | (_ & s' & name & key & w0 & _ & _ & _ & _ & Hd0 & ->)];
    [split; [done|split; [done|lia]]|].
  destruct (feedback_block_rows ui name key w0) as (f & Hf & Hs & _).
  assert (Hc : wf_db (db (collect_feedback ui name key w0))
               /\ Forall (fun r => TableRow.feedback r <> [])
                         (rows (db (collect_feedback ui name key w0)))
               /\ seq (init_db file) <= seq (db (collect_feedback ui name key w0))).
  { split; [|split].
    - destruct (collect_feedback_db ui name key w0) as [(-> & _)|(_ & _ & ->)];
        rewrite Hd0; [done|by apply wf_add_feedback].
    - apply collect_feedback_bodies. by rewrite Hd0.
    - destruct (collect_feedback_db ui name key w0) as [(-> & _)|(_ & _ & ->)];
        rewrite Hd0; [lia|]. simpl. unfold next_rowid. lia. }
  destruct Hc as (Hwf1 & Hb1 & Hs1). split; [|split].
  - by apply (wf_filter f (db (collect_feedback ui name key w0))).
  - rewrite Hf. by apply Forall_filter_keep.
  - by rewrite Hs.
Qed.

Lemma same_second_sound :
  wf_db same_second
  /\ Forall (fun r => TableRow.feedback r <> []) (rows same_second).
Proof.
  split.
  - do 2 apply wf_add_feedback. apply wf_empty_db.
  - repeat constructor; vm_compute; discriminate.
Qed.

Lemma main_keeps_table_sound_witness :
  wf_db (init_db (Some same_second))
  /\ exists w,
       @main rowid_ties (submit_at (lit "more")) (Some session_a) (Some same_second)
       = Some w
       /\ wf_db (db w).
Proof.
  pose proof same_second_sound as [Hwf Hb].
  split; [exact Hwf|].
  destruct (@main rowid_ties (submit_at (lit "more")) (Some session_a)
              (Some same_second)) as [w|] eqn:E.
  - exists w. split; [reflexivity|].
    exact (proj1 (@main_keeps_table_sound rowid_ties (submit_at (lit "more"))
                    (Some session_a) (Some same_second) w Hwf Hb E)).
  - vm_compute in E. discriminate.
Defined.

(** X14.  A run never rewrites a stored row: each row of the table after the run
    was in the table before it, with one possible exception, the row this
    run's Submit added, which carries the fresh rowid, the session's user
    id, the stripped text of the form and the clock reading.  So a run
    adds at most one row. *)
Theorem main_never_alters_rows `{OrderBy} ui ss file w :
  main ui ss file = Some w ->
  (forall r, In r (rows (db w)) ->
     In r (rows (init_db file))
     \/ (submit_button ui = true
         /\ TableRow.id r = next_rowid (init_db file)
         /\ TableRow.user_id r = Session.user_id (default fresh_session ss)
         /\ TableRow.user_name r = Session.user_name (default fresh_session ss)
         /\ TableRow.feedback r = strip (feedback_text ui)
         /\ TableRow.created_at r = clock ui))
  /\ (length (rows (db w)) <= S (length (rows (init_db file))))%nat
  /\ (submit_button ui = false ->
      exists f, rows (db w) = List.filter f (rows (init_db file))).
Proof.
  intros Hm. apply main_db_shape in Hm. simpl in Hm.
  destruct Hm as [(_ & ->) | (_ & s' & name & key & w0 & Hnav & _ & _ & Hs0 & Hd0 & ->)].
  { split; [auto|]. split; [lia|]. intros _. exists (fun _ => true).
    by rewrite filter_all. }
  destruct (feedback_block_rows ui name key w0) as (f & Hf & _ & _).
  pose proof (wizard_navbar_step ui _ s' Hnav) as (_ & Hu & Hn & _).
  rewrite Hf.
  destruct (collect_feedback_db ui name key w0) as [(-> & _)|(Hsub & _ & ->)];
    rewrite Hd0.
  - split; [|split].
    + intros r [Hr _]%List.filter_In. auto.
    + pose proof (List.filter_length_le f (rows (init_db file))). lia.
    + eauto.
  - split; [|split].
    + intros r [Hr _]%List.filter_In. simpl in Hr.
      apply in_app_or in Hr as [Hr|[<-|[]]]; [auto|]. right. simpl.
      rewrite Hs0, Hu, Hn. done.
    + etransitivity; [apply List.filter_length_le|].
      simpl. rewrite length_app. simpl. lia.
    + congruence.
Qed.

Lemma main_never_alters_rows_witness :
  exists w,
    @main rowid_ties (submit_at (lit "more")) (Some session_a) (Some same_second)
    = Some w
    /\ (length (rows (db w)) <= S (length (rows (init_db (Some same_second)))))%nat.
Proof.
  destruct (@main rowid_ties (submit_at (lit "more")) (Some session_a)
              (Some same_second)) as [w|] eqn:E.
  - exists w. split; [reflexivity|].
    exact (proj1 (proj2 (@main_never_alters_rows rowid_ties
                           (submit_at (lit "more")) (Some session_a)
                           (Some same_second) w E))).
  - vm_compute in E. discriminate.
Defined.

(** ** Submitting on a step *)

Lemma wizard_navbar_idle ui s :
  previous_button ui = false -> next_button ui = false ->
  wizard_navbar ui s
  = match py_index WIZARD_STEPS (Session.current_step s) with
    | Some _ => Some s
    | None => None
    end.
Proof.
  intros Hp Hn. unfold wizard_navbar, button. rewrite Hp, Hn. simpl.
  by destruct (py_index _ _).
Qed.

(** X15.  On a logged-in session at a valid step, a run in which a non-blank
    text is submitted (no navigation, no Delete) appends exactly one row
    to the table.  The row is filed under the name of the current step and
    a non-empty section key, with the session's user id and name, the
    stripped text and the clock reading, and the list the step reads back
    for that step and section holds it. *)
Theorem submit_files_under_current_step `{OrderBy} ui s file :
  Session.logged_in s = true ->
  0 <= Session.current_step s <= 4 ->
  previous_button ui = false -> next_button ui = false ->
  submit_button ui = true -> blank (feedback_text ui) = false ->
  (forall i, delete_button ui i = false) ->
  exists w r,
    main ui (Some s) file = Some w
    /\ rows (db w) = rows (init_db file) ++ [r]
    /\ py_index WIZARD_STEPS (Session.current_step s) = Some (TableRow.step r)
    /\ TableRow.section r <> []
    /\ TableRow.user_id r = Session.user_id s
    /\ TableRow.user_name r = Session.user_name s
    /\ TableRow.feedback r = strip (feedback_text ui)
    /\ TableRow.created_at r = clock ui
    /\ In (entry_of_row r)
          (get_feedback (TableRow.step r) (Some (TableRow.section r)) (db w)).
Proof.
  intros Hin Hi Hp Hn Hsub Hb Hdel.
  destruct (main_total ui s file Hi) as (w & Hm).
  pose proof (main_db_shape ui (Some s) file w Hm) as Hshape. simpl in Hshape.
  destruct Hshape as [(Hf & _) | (_ & s' & name & key & w0 & Hnav & Hname & Hkey
                                    & Hs0 & Hd0 & Hdb)]; [congruence|].
  rewrite (wizard_navbar_idle ui s Hp Hn) in Hnav.
  destruct (py_index_steps _ Hi) as (n0 & Hn0). rewrite Hn0 in Hnav.
  injection Hnav as <-.
  destruct (feedback_block_rows ui name key w0) as (f & Hf & _ & Hf2).
  rewrite filter_all in Hf by (intros; apply Hf2, Hdel).
  destruct (collect_feedback_db ui name key w0) as [(_ & [?|?])|(_ & _ & Hadd)];
    [congruence..|].
  rewrite <- Hdb, Hadd, Hd0 in Hf. simpl in Hf.
  rewrite Hs0 in Hf.
  exists w, (TableRow.mk (next_rowid (init_db file)) (Session.user_id s)
               (Session.user_name s) name key (strip (feedback_text ui))
               (clock ui)).
  split; [exact Hm|]. split; [exact Hf|]. simpl.
  split; [exact Hname|]. split; [exact Hkey|].
  repeat (split; [reflexivity|]).
  apply get_feedback_In. eexists. split; [|split; [|reflexivity]].
  - rewrite Hf. apply in_or_app. right. by left.
  - rewrite where_clause_section by done. by apply matches_spec.
Qed.

Lemma submit_files_under_current_step_witness :
  blank (feedback_text (submit_at (lit " Looks good "))) = false
  /\ exists w r,
       @main rowid_ties (submit_at (lit " Looks good ")) (Some (at_step 4))
         (Some same_second) = Some w
       /\ rows (db w) = rows (init_db (Some same_second)) ++ [r]
       /\ py_index WIZARD_STEPS (Session.current_step (at_step 4))
          = Some (TableRow.step r).
Proof.
  split; [reflexivity|].
  assert (Hi : 0 <= Session.current_step (at_step 4) <= 4) by (simpl; lia).
  destruct (@submit_files_under_current_step rowid_ties
              (submit_at (lit " Looks good ")) (at_step 4) (Some same_second)
              eq_refl Hi eq_refl eq_refl eq_refl eq_refl (fun _ => eq_refl))
    as (w & r & Hm & Hrows & Hstep & _).
  exists w, r. split; [exact Hm|]. split; [exact Hrows | exact Hstep].
Defined.

Example submit_on_final_comments :
  option_map (fun w => List.map (fun r => (TableRow.id r, TableRow.step r,
                                           TableRow.section r, TableRow.feedback r))
                         (List.skipn 2 (rows (db w))))
    (@main rowid_ties (submit_at (lit " Looks good ")) (Some (at_step 4))
       (Some same_second))
  = Some [(3, lit "Final Comments", lit "OverallFinal", lit "Looks good")].
Proof. vm_compute. reflexivity. Qed.

(** ** The description shown for a child attribute *)

Lemma find_unique_name (l : list (str * str * str)) k name d sc :
  NoDup (List.map (fun f => f.1.1) l) ->
  l !! k = Some (name, d, sc) ->
  List.find (fun f => str_eqb f.1.1 name) l = Some (name, d, sc).
Proof.
  revert k. induction l as [|[[n0 d0] s0] l IH]; intros k Hnd Hk; [done|].
  simpl in Hnd. apply NoDup_cons in Hnd as [Hnot Hnd].
  destruct k as [|k]; simpl in *.
  - injection Hk as -> -> ->. by rewrite str_eqb_refl.
  - destruct (str_eqb n0 name) eqn:E; [|by eapply IH].
    apply str_eqb_eq in E. subst n0. exfalso. apply Hnot.
    apply list_elem_of_In, in_map_iff. exists (name, d, sc). split; [done|].
    apply list_elem_of_In. by eapply list_elem_of_lookup_2.
Qed.

(** Over any list of child attributes with distinct names, none of them
    "General": position 0 of the select box is "General" with no text, and
    position [k+1] is the [k]-th child with its own description and
    scoring scale. *)
Lemma choose_child_at (l : list (str * str * str)) k name d sc :
  NoDup (List.map (fun f => f.1.1) l) ->
  name <> lit "General" ->
  l !! k = Some (name, d, sc) ->
  choose_child l (S k) = (mkChildChoice name d sc, false)
  /\ choose_child l 0 = (mkChildChoice (lit "General") [] [], false).
Proof.
  intros Hnd Hname Hk.
  destruct l as [|f0 l0] eqn:El; [done|]. rewrite <- El in *.
  assert (Hsel : selectbox (lit "General" :: List.map (fun f => f.1.1) l) (S k) = name).
  { unfold selectbox. simpl.
    change (List.map (fun f => f.1.1) l) with ((fun f : str * str * str => f.1.1) <$> l).
    by rewrite list_lookup_fmap, Hk. }
  unfold choose_child. rewrite El. rewrite <- El.
  rewrite Hsel. split.
  - destruct (str_eqb name (lit "General")) eqn:E;
      [by apply str_eqb_eq in E|]. simpl.
    by rewrite (find_unique_name l k name d sc Hnd Hk).
  - reflexivity.
Qed.

Lemma shipped_names_ok cat attr :
  names_ok (child_attrs_of CHILD_ATTRIBUTES_DICT cat attr) = true.
Proof.
  assert (H : forallb (fun p => forallb (fun q => names_ok q.2) (map_to_list p.2))
                (map_to_list CHILD_ATTRIBUTES_DICT) = true)
    by (vm_compute; reflexivity).
  unfold child_attrs_of.
  destruct (CHILD_ATTRIBUTES_DICT !! cat) as [attrs|] eqn:Hc; [|done].
  destruct (attrs !! attr) as [l|] eqn:Ha; [|done]. simpl.
  rewrite forallb_forall in H.
  apply elem_of_map_to_list, list_elem_of_In in Hc. specialize (H _ Hc).
  simpl in H. rewrite forallb_forall in H.
  apply elem_of_map_to_list, list_elem_of_In in Ha. by specialize (H _ Ha).
Qed.

(** X16.  In the shipped taxonomy, for every category and parent attribute, the
    child select box at position [k+1] settles on the [k]-th child attribute
    of that pair with that child's own description and scoring scale, and
    at position 0 on "General" with no description: names do not repeat
    within a pair and none is "General", so the lookup by name finds the
    chosen tuple. *)
Theorem shipped_child_choice cat attr k name d sc :
  child_attrs_of CHILD_ATTRIBUTES_DICT cat attr !! k = Some (name, d, sc) ->
  choose_child (child_attrs_of CHILD_ATTRIBUTES_DICT cat attr) (S k)
  = (mkChildChoice name d sc, false)
  /\ choose_child (child_attrs_of CHILD_ATTRIBUTES_DICT cat attr) 0
     = (mkChildChoice (lit "General") [] [], false).
Proof.
  intros Hk.
  pose proof (shipped_names_ok cat attr) as [Hnd Hgen]%andb_prop.
  apply bool_decide_eq_true in Hnd. rewrite forallb_forall in Hgen.
  apply choose_child_at; [done| |done].
  assert (Hin : In (name, d, sc) (child_attrs_of CHILD_ATTRIBUTES_DICT cat attr))
    by (apply list_elem_of_In; by eapply list_elem_of_lookup_2).
  specialize (Hgen _ Hin). simpl in Hgen.
  intros ->. by rewrite str_eqb_refl in Hgen.
Qed.

Lemma shipped_child_choice_witness :
  child_attrs_of CHILD_ATTRIBUTES_DICT (lit "Testing") (lit "Utility") !! 1%nat
  = Some (lit "Data Quality for Scale-up",
          lit "Usefulness of test data for scaling to pilot or commercial applications.",
          lit "1=Marginal; 5=Moderate; 9=Essential")
  /\ choose_child (child_attrs_of CHILD_ATTRIBUTES_DICT (lit "Testing") (lit "Utility")) 2
     = (mkChildChoice (lit "Data Quality for Scale-up")
          (lit "Usefulness of test data for scaling to pilot or commercial applications.")
          (lit "1=Marginal; 5=Moderate; 9=Essential"), false).
Proof.
  assert (Hk : child_attrs_of CHILD_ATTRIBUTES_DICT (lit "Testing") (lit "Utility")
               !! 1%nat
               = Some (lit "Data Quality for Scale-up",
                       lit "Usefulness of test data for scaling to pilot or commercial applications.",
                       lit "1=Marginal; 5=Moderate; 9=Essential"))
    by (vm_compute; reflexivity).
  split; [exact Hk|].
  exact (proj1 (shipped_child_choice _ _ _ _ _ _ Hk)).
Defined.

(** ** Keys of the two flat steps *)

Lemma flat_key_injective (general : str) (labels : list str) c1 c2 :
  forallb (fun a => forallb (fun b =>
     bool_decide (a = b)
     || negb (bool_decide
                ((if negb (str_eqb a (lit "General")) then a else general)
                 = (if negb (str_eqb b (lit "General")) then b else general))))
     (lit "General" :: labels)) (lit "General" :: labels) = true ->
  In c1 (lit "General" :: labels) -> In c2 (lit "General" :: labels) ->
  (if negb (str_eqb c1 (lit "General")) then c1 else general)
  = (if negb (str_eqb c2 (lit "General")) then c2 else general) ->
  c1 = c2.
Proof.
  intros Hall H1 H2 E. rewrite forallb_forall in Hall.
  specialize (Hall c1 H1). rewrite forallb_forall in Hall.
  specialize (Hall c2 H2).
  apply orb_prop in Hall as [Heq|Hne].
  - by apply bool_decide_eq_true in Heq.
  - apply negb_true_iff, bool_decide_eq_false in Hne. done.
Qed.

(** X17.  On the Method Categories and Parent Attributes steps the form and the
    list work under a key that tells the options of the select box apart:
    two runs get the same key only if they settled on the same option, so
    comments filed under "General" and under each label never share a
    section. *)
Theorem flat_step_keys `{OrderBy} ui1 ui2 w1 w2 :
  let chosen_cat ui := selectbox (lit "General" :: METHOD_CATEGORIES) (category_select ui) in
  let attr_choice ui := selectbox (lit "General" :: PARENT_ATTRIBUTES) (attribute_select ui) in
  (exists k1 k2,
     step_method_categories ui1 w1 = feedback_block ui1 (lit "Method Categories") k1 w1
     /\ step_method_categories ui2 w2 = feedback_block ui2 (lit "Method Categories") k2 w2
     /\ In k1 (lit "GeneralCategories" :: METHOD_CATEGORIES)
     /\ (k1 = k2 <-> chosen_cat ui1 = chosen_cat ui2))
  /\ (exists k1 k2,
        step_parent_attributes ui1 w1 = feedback_block ui1 (lit "Parent Attributes") k1 w1
        /\ step_parent_attributes ui2 w2 = feedback_block ui2 (lit "Parent Attributes") k2 w2
        /\ In k1 (lit "GeneralAttributes" :: PARENT_ATTRIBUTES)
        /\ (k1 = k2 <-> attr_choice ui1 = attr_choice ui2)).
Proof.
  intros chosen_cat attr_choice. split.
  - eexists _, _. split; [reflexivity|]. split; [reflexivity|].
    fold (chosen_cat ui1) (chosen_cat ui2).
    assert (H1 : In (chosen_cat ui1) (lit "General" :: METHOD_CATEGORIES))
      by (by apply selectbox_In).
    assert (H2 : In (chosen_cat ui2) (lit "General" :: METHOD_CATEGORIES))
      by (by apply selectbox_In).
    split.
    + destruct (str_eqb (chosen_cat ui1) (lit "General")) eqn:E; simpl;
        [by left|].
      destruct H1 as [H1|H1]; [|by right].
      rewrite <- H1, str_eqb_refl in E. discriminate.
    + split; [|by intros ->].
      apply (flat_key_injective (lit "GeneralCategories") METHOD_CATEGORIES);
        [vm_compute; reflexivity|done..].
  - eexists _, _. split; [reflexivity|]. split; [reflexivity|].
    fold (attr_choice ui1) (attr_choice ui2).
    assert (H1 : In (attr_choice ui1) (lit "General" :: PARENT_ATTRIBUTES))
      by (by apply selectbox_In).
    assert (H2 : In (attr_choice ui2) (lit "General" :: PARENT_ATTRIBUTES))
      by (by apply selectbox_In).
    split.
    + destruct (str_eqb (attr_choice ui1) (lit "General")) eqn:E; simpl;
        [by left|].
      destruct H1 as [H1|H1]; [|by right].
      rewrite <- H1, str_eqb_refl in E. discriminate.
    + split; [|by intros ->].
      apply (flat_key_injective (lit "GeneralAttributes") PARENT_ATTRIBUTES);
        [vm_compute; reflexivity|done..].
Qed.

(** ** The shipped dictionary covers every pair *)

(** X18.  With the shipped dictionary the child step never falls back to the
    lone "General": whatever the three select boxes hold, the chosen pair
    has child attributes, the "No predefined child attributes" notice is
    not shown, and the child choice is "General" or one of the pair's
    child names. *)
Theorem shipped_step_offers_children `{OrderBy} ui :
  let cat_choice := selectbox METHOD_CATEGORIES (child_cat ui) in
  let attr_choice := selectbox PARENT_ATTRIBUTES (child_attr ui) in
  let child_attrs := child_attrs_of CHILD_ATTRIBUTES_DICT cat_choice attr_choice in
  child_attrs <> []
  /\ (choose_child child_attrs (child_feat ui)).2 = false
  /\ In (child_feat_choice (choose_child child_attrs (child_feat ui)).1)
        (lit "General" :: List.map (fun f => f.1.1) child_attrs).
Proof.
  intros cat_choice attr_choice child_attrs.
  assert (Hne : child_attrs <> []).
  { apply shipped_pairs_have_children; by apply selectbox_In. }
  split; [exact Hne|].
  unfold choose_child. destruct child_attrs as [|f0 l0] eqn:E; [done|].
  set (options := lit "General" :: List.map (fun f => f.1.1) (f0 :: l0)).
  assert (Hsel : In (selectbox options (child_feat ui)) options)
    by (by apply selectbox_In).
  destruct (negb (str_eqb (selectbox options (child_feat ui)) (lit "General")));
    [destruct (List.find _ _)|]; done.
Qed.
